(** * Lightning beer tap: payment reconciliation and solenoid control

    A shallow embedding of the two payment monitors of the repository,

    - [dual_wallet_monitor.py]  (class [DualWalletPaymentMonitor]), module
      [DualWallet] below, and
    - [lightning_solenoid_polling.py] (class [LightningPaymentMonitor]),
      module [Polling] below,

    together with the properties of the reconciliation engine, of the pour
    duration calculator and of the actuator controller.

    Conventions of the embedding.

    - Python [int] is [Z]; Python [float] is idealised as an exact rational
      ([Q]); [round(x, 1)] is rounding to the nearest tenth, ties to even.
      A binary double differs from the rational in two ways: a quotient
      such as 13/20 is stored a little above or below its exact value, so
      that [round] can fall on the other neighbouring tenth, and the
      conversion of an integer beyond the range of a double raises
      [OverflowError].  Neither is modelled.  What is stated of the duration
      calculator is therefore conditional on its returning, and is confined
      to what the floating point computation shares with the exact one: the
      order of the results, the floor of one half, and the values that are
      kept exactly (one half, a whole number of tenths that the
      configuration gives as a cap, the default duration).
    - An instant ([datetime]) is a number of microseconds since the epoch.
    - A [dict] is an association list in insertion order (Python dicts
      iterate in insertion order); a [set] is kept as the duplicate-free list
      of its elements in the order they were added, and the order in which
      [list(s)] enumerates it is a parameter ([set_order]): Python gives no
      guarantee on it.
    - The ledger is an oracle: the answer of each HTTP call is an argument of
      the function that makes the call; [None] stands for a network failure
      or a status code other than 200.
    - Wall-clock readings ([datetime.now]) are arguments as well. *)

From Stdlib Require Import ZArith QArith Qround Qminmax.
From Stdlib Require Import List String Ascii DecimalString Bool Lia Permutation.
Import ListNotations.

Local Open Scope Z_scope.

(** ** Numbers *)

Module PyNum.

(** [round(x)] of Python 3 on an exact value: nearest integer, ties to even.
    On the exact value of a quotient, not on the double that stores it. *)
Definition round_half_even (q : Q) : Z :=
  let f := Qfloor q in
  match Qcompare (q - inject_Z f) (1 # 2) with
  | Lt => f
  | Gt => f + 1
  | Eq => if Z.even f then f else f + 1
  end.

(** [round(x, 1)]. *)
Definition round1 (q : Q) : Q :=
  Qmake (round_half_even (q * inject_Z 10)) 10.

(** [a / b] on numbers: [None] is [ZeroDivisionError].  The quotient is
    exact; the [OverflowError] of a quotient beyond the range of a double is
    outside the idealisation. *)
Definition truediv (a b : Q) : option Q :=
  if Qeq_bool b 0 then None else Some (a / b)%Q.

(** [abs(a) // 1000] (floor division). *)
Definition msat_to_sats (a : Z) : Z := Z.abs a / 1000.

End PyNum.

(** ** Channel configuration ([WALLET_1_CONFIG], [WALLET_2_CONFIG]) *)

Record wallet_config : Type := {
  name : string;
  wallet_id : string;
  relay_pin : Z;
  min_payment_amount : Z;
  sats_per_second : Q;
  max_pour_duration : Q;
  default_duration : Q
}.

Definition WALLET_1_CONFIG : wallet_config := {|
  name := "Wallet 1";
  wallet_id := "your-wallet-1-id";
  relay_pin := 18;
  min_payment_amount := 1;
  sats_per_second := 10;
  max_pour_duration := 10;
  default_duration := 5
|}.

Definition WALLET_2_CONFIG : wallet_config := {|
  name := "Wallet 2";
  wallet_id := "your-wallet-2-id";
  relay_pin := 19;
  min_payment_amount := 5;
  sats_per_second := 15;
  max_pour_duration := 15;
  default_duration := 7
|}.

(** ** Duration calculator *)

(** [DualWalletPaymentMonitor.calculate_pour_duration].  The result is
    [None] when the division raises.  The test on the rate comes first, so
    the division is never by zero; an amount too large for a double, on which
    the Python division raises [OverflowError], is outside the idealisation
    of the numbers. *)
Definition calculate_pour_duration (amount_sats : Z) (cfg : wallet_config)
  : option Q :=
  let sps := sats_per_second cfg in
  let max_duration := max_pour_duration cfg in
  let default := default_duration cfg in
  if Qle_bool sps 0 then Some default
  else
    match PyNum.truediv (inject_Z amount_sats) sps with
    | None => None
    | Some calculated_duration =>
        let duration := Qmin calculated_duration max_duration in
        let duration := Qmax duration (1 # 2) in
        Some (PyNum.round1 duration)
    end.

(** ** Python containers *)

Module PyDict.
Section Dict.
Context {V : Type}.

(** A [dict] with string keys, as the list of its items in insertion
    order; keys are pairwise distinct. *)
Definition dict : Type := list (string * V).

Fixpoint get (k : string) (d : dict) : option V :=
  match d with
  | [] => None
  | (k', v) :: rest => if String.eqb k k' then Some v else get k rest
  end.

(** [k in d] *)
Definition mem (k : string) (d : dict) : bool :=
  match get k d with Some _ => true | None => false end.

(** [d[k] = v]: an existing key keeps its position, a new one goes last. *)
Fixpoint set (k : string) (v : V) (d : dict) : dict :=
  match d with
  | [] => [(k, v)]
  | (k', v') :: rest =>
      if String.eqb k k' then (k', v) :: rest else (k', v') :: set k v rest
  end.

(** [del d[k]]; the monitors only delete keys that are present. *)
Fixpoint del (k : string) (d : dict) : dict :=
  match d with
  | [] => []
  | (k', v') :: rest =>
      if String.eqb k k' then rest else (k', v') :: del k rest
  end.

Definition keys (d : dict) : list string := map fst d.

Definition del_all (ks : list string) (d : dict) : dict :=
  fold_left (fun acc k => del k acc) ks d.
End Dict.
Arguments dict V : clear implicits.
End PyDict.

Module PySet.
(** A [set] of strings: its elements, without repetition, in the order
    they were added.  Only membership and size are observable from that
    representation; enumeration goes through [set_order]. *)
Definition pyset : Type := list string.

Definition mem (x : string) (s : pyset) : bool :=
  existsb (String.eqb x) s.

(** [s.add(x)] *)
Definition add (x : string) (s : pyset) : pyset :=
  if mem x s then s else s ++ [x].

(** [l[-n:]] for a list at least as long as needed, the whole list
    otherwise. *)
Definition last_n {A : Type} (n : nat) (l : list A) : list A :=
  skipn (List.length l - n)%nat l.
End PySet.

(** ** Ledger records and answers *)

(** A payment object of the LNbits API, with the keys the monitors read;
    [None] is an absent key. *)
Record payment : Type := {
  pay_amount : option Z;
  pay_payment_hash : option string;
  pay_checking_id : option string;
  pay_memo : option string;
  pay_paid : option bool;
  pay_time : option string;
  pay_created_at : option string;
  pay_paid_at : option string;
  pay_date : option string
}.

(** What an HTTP GET gives back: an exception of [requests], or a status
    code with the decoded body. *)
Inductive http_response (A : Type) : Type :=
| NetworkError
| Response (status_code : Z) (json : A).
Arguments NetworkError {A}.
Arguments Response {A} status_code json.

(** [payment.get('amount', 0)] *)
Definition get_amount (p : payment) : Z :=
  match pay_amount p with Some a => a | None => 0 end.

(** [payment.get('payment_hash', payment.get('checking_id', ''))] *)
Definition get_payment_hash (p : payment) : string :=
  match pay_payment_hash p with
  | Some h => h
  | None => match pay_checking_id p with Some c => c | None => EmptyString end
  end.

(** [payment.get('memo', '')] *)
Definition get_memo (p : payment) : string :=
  match pay_memo p with Some m => m | None => EmptyString end.

(** [payment.get('paid', False)] *)
Definition get_paid (p : payment) : bool :=
  match pay_paid p with Some b => b | None => false end.

(** An entry of [pending_invoices]. *)
Record invoice : Type := {
  inv_amount : Z;
  inv_memo : string;
  inv_created_time : Z
}.

(** [timedelta(hours=24)], in microseconds. *)
Definition hours_24 : Z := 24 * 3600 * 1000000.

(** What the monitors do that can be observed from outside: a call of
    [activate_solenoid(amount, payment_hash, ...)], and the log line of an
    expired invoice. *)
Inductive event : Type :=
| Activate (amount : Z) (payment_hash : string)
| Expired (payment_hash : string).

Definition is_activate_of (h : string) (e : event) : bool :=
  match e with
  | Activate _ h' => String.eqb h h'
  | Expired _ => false
  end.

(** How many times the solenoid was activated for identifier [h]. *)
Definition activations (h : string) (tr : list event) : nat :=
  List.length (filter (is_activate_of h) tr).

(** ** Actuator controller *)

Module Actuator.

Inductive level : Type := LOW | HIGH.

(** The output latch of every pin. *)
Definition gpio : Type := Z -> level.

(** [GPIO.output(pin, v)] *)
Definition GPIO_output (g : gpio) (pin : Z) (v : level) : gpio :=
  fun p => if Z.eqb p pin then v else g p.

(** The exceptions that matter here.  The first four derive from
    [Exception]; [KeyboardInterrupt] and [SystemExit] derive from
    [BaseException] only, so [except Exception] lets them through. *)
Inductive py_exception : Type :=
| ValueError
| OSError
| ZeroDivisionError
| UnboundLocalError
| KeyboardInterrupt
| SystemExit.

Definition is_Exception (e : py_exception) : bool :=
  match e with
  | ValueError | OSError | ZeroDivisionError | UnboundLocalError => true
  | KeyboardInterrupt | SystemExit => false
  end.

(** How a statement ends. *)
Inductive outcome : Type :=
| Returns
| Raises (e : py_exception).

(** [except Exception as e: <log>] applied to the outcome of a [try] body. *)
Definition except_Exception (r : outcome) : outcome :=
  match r with
  | Returns => Returns
  | Raises e => if is_Exception e then Returns else Raises e
  end.

End Actuator.

(** ** Ledger client *)

(** [get_recent_payments]: the decoded list on status 200, [None] on any
    other status and on a network error. *)
Definition get_recent_payments (r : http_response (list payment))
  : option (list payment) :=
  match r with
  | NetworkError => None
  | Response status_code payments =>
      if status_code =? 200 then Some payments else None
  end.

(** [check_specific_payment_status]: [(is_paid, payment_data)], and
    [(False, None)] on any failure. *)
Definition check_specific_payment_status (r : http_response payment)
  : bool * option payment :=
  match r with
  | NetworkError => (false, None)
  | Response status_code payment_data =>
      if status_code =? 200 then (get_paid payment_data, Some payment_data)
      else (false, None)
  end.

(** ** The loops of [check_pending_payments], which the two monitors share

    The first loop: every pending entry is
    looked up on the status endpoint ([ledger h] is the answer for [h]);
    the result is the processed set, [completed_payments], and the
    activations. *)
Fixpoint sweep (ledger : string -> http_response payment)
    (items : list (string * invoice)) (processed : PySet.pyset)
  : PySet.pyset * list string * list event :=
  match items with
  | [] => (processed, [], [])
  | (payment_hash, invoice_data) :: rest =>
      if fst (check_specific_payment_status (ledger payment_hash)) then
        let '(processed', completed, tr) :=
          sweep ledger rest (PySet.add payment_hash processed) in
        (processed', payment_hash :: completed,
         Activate (inv_amount invoice_data) payment_hash :: tr)
      else sweep ledger rest processed
  end.

(** [expired_invoices] *)
Definition expired_invoices (pending : PyDict.dict invoice) (cutoff_time : Z)
  : list string :=
  map fst (filter (fun item => inv_created_time (snd item) <? cutoff_time)
                  pending).

(** ** The dual wallet monitor ([dual_wallet_monitor.py]) *)

Module DualWallet.
Import Actuator.

(** [activate_solenoid].  [sleep d] is how [time.sleep(d)] ends in this
    call.

    - When the duration is computed, the body of the [try] raises the relay
      and holds; the handler swallows what derives from [Exception]; the
      [finally] clause lowers the relay and logs, whatever happened.
    - When [calculate_pour_duration] raises, on the first line of the [try],
      neither [wallet_name] nor [pour_duration] has been assigned and the
      relay has not been raised.  The handler is entered and its log line
      reads [wallet_name]: [UnboundLocalError].  The [finally] clause runs:
      it lowers the relay, and its log line reads [pour_duration]:
      [UnboundLocalError] again, which is what the call raises. *)
Definition activate_solenoid (amount : Z) (payment_hash : string)
    (wallet_config : option wallet_config)
    (sleep : Q -> outcome) (g : gpio) : gpio * outcome :=
  match wallet_config with
  | None => (g, Returns)
  | Some cfg =>
      match calculate_pour_duration amount cfg with
      | None =>
          (GPIO_output g (relay_pin cfg) LOW, Raises UnboundLocalError)
      | Some pour_duration =>
          let g := GPIO_output g (relay_pin cfg) HIGH in
          let handled := except_Exception (sleep pour_duration) in
          (GPIO_output g (relay_pin cfg) LOW, handled)
      end
  end.

(** An entry of [wallet_states] (the HTTP headers are left out). *)
Record wallet_state : Type := {
  pending_invoices : PyDict.dict invoice;
  processed_payments : PySet.pyset;
  last_check_time : Z
}.

Definition with_pending (st : wallet_state) (d : PyDict.dict invoice) :=
  {| pending_invoices := d;
     processed_payments := processed_payments st;
     last_check_time := last_check_time st |}.

Definition with_processed (st : wallet_state) (s : PySet.pyset) :=
  {| pending_invoices := pending_invoices st;
     processed_payments := s;
     last_check_time := last_check_time st |}.

Definition with_last_check_time (st : wallet_state) (t : Z) :=
  {| pending_invoices := pending_invoices st;
     processed_payments := processed_payments st;
     last_check_time := t |}.

(** [LOOKBACK_MINUTES], in microseconds. *)
Definition LOOKBACK : Z := 2 * 60 * 1000000.

(** The entry that [setup_wallet_states] creates; [now] is the clock at
    startup. *)
Definition setup_wallet_state (now : Z) : wallet_state :=
  {| pending_invoices := [];
     processed_payments := [];
     last_check_time := now - LOOKBACK |}.

Section Scanning.
(** [parse_payment_time]: the time parser is a collaborator; [None] when
    nothing parses. *)
Variable parse_payment_time : string -> option Z.

(** The loop over ['time', 'created_at', 'paid_at', 'date']: the first
    field that is present, not empty, and parses. *)
Fixpoint first_timestamp (fields : list (option string)) : option Z :=
  match fields with
  | [] => None
  | None :: rest => first_timestamp rest
  | Some time_str :: rest =>
      if String.eqb time_str EmptyString then first_timestamp rest
      else match parse_payment_time time_str with
           | Some payment_time => Some payment_time
           | None => first_timestamp rest
           end
  end.

Definition payment_timestamp (p : payment) : option Z :=
  first_timestamp [pay_time p; pay_created_at p; pay_paid_at p; pay_date p].

(** One turn of the loop of [scan_for_recent_payments]. *)
Definition scan_payment (cfg : wallet_config) (st : wallet_state)
    (p : payment) : wallet_state * list event :=
  let amount := get_amount p in
  if amount <=? 0 then (st, [])
  else
    let payment_hash := get_payment_hash p in
    let amount_sats := PyNum.msat_to_sats amount in
    let memo := get_memo p in
    if PySet.mem payment_hash (processed_payments st) then (st, [])
    else if (0 <? min_payment_amount cfg)
            && (amount_sats <? min_payment_amount cfg)
    then (with_processed st
            (PySet.add payment_hash (processed_payments st)), [])
    else
      match payment_timestamp p with
      | None => (st, [])
      | Some payment_time =>
          if last_check_time st <=? payment_time then
            if get_paid p then
              (with_processed st
                 (PySet.add payment_hash (processed_payments st)),
               [Activate amount_sats payment_hash])
            else if PyDict.mem payment_hash (pending_invoices st) then (st, [])
            else
              (with_pending st
                 (PyDict.set payment_hash
                    {| inv_amount := amount_sats;
                       inv_memo := memo;
                       inv_created_time := payment_time |}
                    (pending_invoices st)),
               [])
          else (st, [])
      end.

Fixpoint scan_loop (cfg : wallet_config) (payments : list payment)
    (st : wallet_state) : wallet_state * list event :=
  match payments with
  | [] => (st, [])
  | p :: rest =>
      let '(st1, tr1) := scan_payment cfg st p in
      let '(st2, tr2) := scan_loop cfg rest st1 in
      (st2, tr1 ++ tr2)
  end.

(** [scan_for_recent_payments].  [r] is the answer of the list endpoint,
    [current_time] the clock read after it arrived. *)
Definition scan_for_recent_payments (cfg : wallet_config)
    (st : wallet_state) (r : http_response (list payment))
    (current_time : Z) : wallet_state * list event :=
  match get_recent_payments r with
  | None => (st, [])
  | Some [] => (st, [])
  | Some payments =>
      let '(st', tr) := scan_loop cfg payments st in
      (with_last_check_time st' current_time, tr)
  end.
End Scanning.

(** [check_pending_payments].  [now] is the clock read for the cutoff. *)
Definition check_pending_payments (cfg : wallet_config) (st : wallet_state)
    (ledger : string -> http_response payment) (now : Z)
  : wallet_state * list event :=
  match pending_invoices st with
  | [] => (st, [])
  | _ :: _ =>
      let '(processed, completed_payments, tr) :=
        sweep ledger (pending_invoices st) (processed_payments st) in
      let pending1 := PyDict.del_all completed_payments (pending_invoices st) in
      let cutoff_time := now - hours_24 in
      let expired := expired_invoices pending1 cutoff_time in
      let pending2 := PyDict.del_all expired pending1 in
      ({| pending_invoices := pending2;
          processed_payments := processed;
          last_check_time := last_check_time st |},
       tr ++ map Expired expired)
  end.

Section Cleanup.
(** The order in which [list(s)] enumerates a set given by the history of
    its insertions. *)
Variable set_order : list string -> list string.

(** The body of the loop of [cleanup_old_processed_payments]. *)
Definition cleanup_wallet_state (st : wallet_state) : wallet_state :=
  if (1000 <? Z.of_nat (List.length (processed_payments st))) then
    let old_payments := set_order (processed_payments st) in
    with_processed st (PySet.last_n 500 old_payments)
  else st.

Definition cleanup_old_processed_payments
    (wallet_states : PyDict.dict wallet_state) : PyDict.dict wallet_state :=
  map (fun kv => (fst kv, cleanup_wallet_state (snd kv))) wallet_states.
End Cleanup.

(** What one poll tick does to a wallet, with the answers it gets. *)
Inductive tick : Type :=
| ScanTick (r : http_response (list payment)) (current_time : Z)
| CheckTick (ledger : string -> http_response payment) (now : Z).

Section Run.
Variable parse_payment_time : string -> option Z.

Definition do_tick (cfg : wallet_config) (st : wallet_state) (t : tick)
  : wallet_state * list event :=
  match t with
  | ScanTick r current_time =>
      scan_for_recent_payments parse_payment_time cfg st r current_time
  | CheckTick ledger now => check_pending_payments cfg st ledger now
  end.

Fixpoint run_ticks (cfg : wallet_config) (st : wallet_state)
    (ticks : list tick) : wallet_state * list event :=
  match ticks with
  | [] => (st, [])
  | t :: rest =>
      let '(st1, tr1) := do_tick cfg st t in
      let '(st2, tr2) := run_ticks cfg st1 rest in
      (st2, tr1 ++ tr2)
  end.
End Run.

End DualWallet.

(** ** The single wallet monitor ([lightning_solenoid_polling.py]) *)

Module Polling.
Import Actuator.

Definition RELAY_PIN : Z := 18.
Definition SOLENOID_DURATION : Q := 5.
Definition MIN_PAYMENT_AMOUNT : Z := 1.

(** [activate_solenoid]: no [finally] here; the relay is lowered at the end
    of the [try] body and in the [except Exception] handler. *)
Definition activate_solenoid (amount : Z) (payment_hash : string)
    (sleep : Q -> outcome) (g : gpio) : gpio * outcome :=
  let g1 := GPIO_output g RELAY_PIN HIGH in
  match sleep SOLENOID_DURATION with
  | Returns => (GPIO_output g1 RELAY_PIN LOW, Returns)
  | Raises e =>
      if is_Exception e then (GPIO_output g1 RELAY_PIN LOW, Returns)
      else (g1, Raises e)
  end.

(** The fields of [LightningPaymentMonitor] that hold state. *)
Record monitor : Type := {
  pending_invoices : PyDict.dict invoice;
  processed_payments : PySet.pyset
}.

(** One turn of the loop of [scan_for_new_invoices]; [now] is the
    [datetime.now()] stored with a new invoice. *)
Definition scan_payment (ledger : string -> http_response payment) (now : Z)
    (st : monitor) (p : payment) : monitor :=
  if get_amount p <=? 0 then st
  else
    let payment_hash := get_payment_hash p in
    let amount := PyNum.msat_to_sats (get_amount p) in
    let memo := get_memo p in
    if PyDict.mem payment_hash (pending_invoices st)
       || PySet.mem payment_hash (processed_payments st)
    then st
    else if (0 <? MIN_PAYMENT_AMOUNT) && (amount <? MIN_PAYMENT_AMOUNT) then
      {| pending_invoices := pending_invoices st;
         processed_payments := PySet.add payment_hash (processed_payments st) |}
    else if fst (check_specific_payment_status (ledger payment_hash)) then
      {| pending_invoices := pending_invoices st;
         processed_payments := PySet.add payment_hash (processed_payments st) |}
    else
      {| pending_invoices :=
           PyDict.set payment_hash
             {| inv_amount := amount; inv_memo := memo;
                inv_created_time := now |}
             (pending_invoices st);
         processed_payments := processed_payments st |}.

(** [scan_for_new_invoices] *)
Definition scan_for_new_invoices (st : monitor)
    (r : http_response (list payment))
    (ledger : string -> http_response payment) (now : Z) : monitor :=
  match get_recent_payments r with
  | None => st
  | Some payments => fold_left (scan_payment ledger now) payments st
  end.

(** [check_pending_payments] *)
Definition check_pending_payments (st : monitor)
    (ledger : string -> http_response payment) (now : Z)
  : monitor * list event :=
  match pending_invoices st with
  | [] => (st, [])
  | _ :: _ =>
      let '(processed, completed_payments, tr) :=
        sweep ledger (pending_invoices st) (processed_payments st) in
      let pending1 := PyDict.del_all completed_payments (pending_invoices st) in
      let cutoff_time := now - hours_24 in
      let expired := expired_invoices pending1 cutoff_time in
      let pending2 := PyDict.del_all expired pending1 in
      ({| pending_invoices := pending2; processed_payments := processed |},
       tr ++ map Expired expired)
  end.

Inductive tick : Type :=
| ScanTick (r : http_response (list payment))
           (ledger : string -> http_response payment) (now : Z)
| CheckTick (ledger : string -> http_response payment) (now : Z).

Definition do_tick (st : monitor) (t : tick) : monitor * list event :=
  match t with
  | ScanTick r ledger now => (scan_for_new_invoices st r ledger now, [])
  | CheckTick ledger now => check_pending_payments st ledger now
  end.

Fixpoint run_ticks (st : monitor) (ticks : list tick)
  : monitor * list event :=
  match ticks with
  | [] => (st, [])
  | t :: rest =>
      let '(st1, tr1) := do_tick st t in
      let '(st2, tr2) := run_ticks st1 rest in
      (st2, tr1 ++ tr2)
  end.

(** The monitor as [__init__] leaves it. *)
Definition init : monitor :=
  {| pending_invoices := []; processed_payments := [] |}.

End Polling.

(** ** A time parser for the worked examples

    [strptime] with the format ["%Y-%m-%dT%H:%M:%SZ"], the second of the
    list in [parse_payment_time], on strings of exactly twenty characters;
    the examples use no other timestamps.  A string that names no day of
    the calendar (the 30th of February, the year 0000) is refused, as
    [datetime] refuses it. *)

Module IsoTime.

Definition digit (c : ascii) : option Z :=
  let n := Z.of_N (N_of_ascii c) in
  if (48 <=? n) && (n <=? 57) then Some (n - 48) else None.

Fixpoint number (acc : Z) (cs : list ascii) : option Z :=
  match cs with
  | [] => Some acc
  | c :: rest =>
      match digit c with
      | Some d => number (10 * acc + d) rest
      | None => None
      end
  end.

(** Days between 1970-01-01 and the given day of the proleptic Gregorian
    calendar. *)
Definition days_from_civil (y m d : Z) : Z :=
  let y' := if m <=? 2 then y - 1 else y in
  let era := y' / 400 in
  let yoe := y' - era * 400 in
  let mp := (m + 9) mod 12 in
  let doy := (153 * mp + 2) / 5 + d - 1 in
  let doe := yoe * 365 + yoe / 4 - yoe / 100 + doy in
  era * 146097 + doe - 719468.

(** The leap years and the lengths of the months of the Gregorian
    calendar. *)
Definition is_leap (y : Z) : bool :=
  (y mod 4 =? 0) && (negb (y mod 100 =? 0) || (y mod 400 =? 0)).

Definition days_in_month (y m : Z) : Z :=
  if m =? 2 then (if is_leap y then 29 else 28)
  else if (m =? 4) || (m =? 6) || (m =? 9) || (m =? 11) then 30
  else 31.

Definition parse (s : string) : option Z :=
  match list_ascii_of_string s with
  | [y1; y2; y3; y4; "-"; m1; m2; "-"; d1; d2; "T";
     h1; h2; ":"; n1; n2; ":"; s1; s2; "Z"]%char =>
      match number 0 [y1; y2; y3; y4], number 0 [m1; m2], number 0 [d1; d2],
            number 0 [h1; h2], number 0 [n1; n2], number 0 [s1; s2] with
      | Some y, Some m, Some d, Some hh, Some mm, Some ss =>
          if (1 <=? y) && (1 <=? m) && (m <=? 12)
             && (1 <=? d) && (d <=? days_in_month y m)
             && (hh <=? 23) && (mm <=? 59) && (ss <=? 59)
          then Some ((days_from_civil y m d * 86400
                      + hh * 3600 + mm * 60 + ss) * 1000000)
          else None
      | _, _, _, _, _, _ => None
      end
  | _ => None
  end.

End IsoTime.

(** ** Notions and examples used in the statements *)

(** A whole number of tenths. *)
Definition tenths (q : Q) : Prop := exists k : Z, (q == k # 10)%Q.



(** The status endpoint reports [h] as paid. *)
Definition reported_paid (ledger : string -> http_response payment)
    (h : string) : bool :=
  fst (check_specific_payment_status (ledger h)).

(** The item was discovered before the cutoff. *)
Definition older_than (cutoff_time : Z) (item : string * invoice) : bool :=
  inv_created_time (snd item) <? cutoff_time.

(** The items of a pending map that the status endpoint reports as paid,
    and those it does not. *)
Definition paid_items (ledger : string -> http_response payment)
    (pending : PyDict.dict invoice) : PyDict.dict invoice :=
  filter (fun item => reported_paid ledger (fst item)) pending.

Definition unpaid_items (ledger : string -> http_response payment)
    (pending : PyDict.dict invoice) : PyDict.dict invoice :=
  filter (fun item => negb (reported_paid ledger (fst item))) pending.

Definition activation_of (item : string * invoice) : event :=
  Activate (inv_amount (snd item)) (fst item).

Definition add_all (ks : list string) (s : PySet.pyset) : PySet.pyset :=
  fold_left (fun acc k => PySet.add k acc) ks s.

(** What a check leaves pending: the items not reported as paid and not
    older than the cutoff. *)
Definition kept_pending (ledger : string -> http_response payment)
    (cutoff_time : Z) (pending : PyDict.dict invoice) : PyDict.dict invoice :=
  filter (fun item => negb (older_than cutoff_time item))
         (unpaid_items ledger pending).

(** What a check emits: an activation for each item reported as paid, then
    the expiry of each other item older than the cutoff. *)
Definition check_trace (ledger : string -> http_response payment)
    (cutoff_time : Z) (pending : PyDict.dict invoice) : list event :=
  map activation_of (paid_items ledger pending)
  ++ map Expired (expired_invoices (unpaid_items ledger pending) cutoff_time).

(** The answer of the ledger is a failure: no answer at all, or a status
    other than 200. *)
Definition transport_error {A : Type} (r : http_response A) : Prop :=
  match r with
  | NetworkError => True
  | Response status_code _ => status_code <> 200
  end.

(** An invoice of 5 sats discovered at the epoch, pending on wallet 1, and
    a check made 25 hours later. *)
Definition invoice_hash : string :=
  "3a7f9c2e5b8d4f1a6c0e9b7d2f4a8c1e3b5d7f9a1c3e5b7d9f2a4c6e8b0d2f4a".

Definition stored_invoice : invoice :=
  {| inv_amount := 5; inv_memo := "pint"; inv_created_time := 0 |}.

Definition day_old_state : DualWallet.wallet_state :=
  {| DualWallet.pending_invoices := [(invoice_hash, stored_invoice)];
     DualWallet.processed_payments := [];
     DualWallet.last_check_time := 0 |}.

Definition after_25_hours : Z := 25 * 3600 * 1000000.

(** Answers of the status endpoint: the invoice still unpaid; the invoice
    paid; the invoice paid, with another amount in the record; no answer. *)
Definition status_record (msat : Z) (paid : bool) : payment :=
  {| pay_amount := Some msat;
     pay_payment_hash := Some invoice_hash;
     pay_checking_id := Some invoice_hash;
     pay_memo := Some "pint"%string;
     pay_paid := Some paid;
     pay_time := None; pay_created_at := None;
     pay_paid_at := None; pay_date := None |}.

Definition ledger_unpaid (h : string) : http_response payment :=
  Response 200 (status_record 5000 false).

Definition ledger_paid (h : string) : http_response payment :=
  Response 200 (status_record 5000 true).

Definition ledger_paid_other_amount (h : string) : http_response payment :=
  Response 200 (status_record 9000 true).

Definition ledger_down (h : string) : http_response payment := NetworkError.

(** A hold in which Ctrl+C arrives: [time.sleep] raises [KeyboardInterrupt]. *)
Definition interrupted_sleep (d : Q) : Actuator.outcome :=
  Actuator.Raises Actuator.KeyboardInterrupt.

(** Identifiers [hash0], [hash1], ... *)
Definition numbered (n : nat) : string :=
  String.append "hash" (NilEmpty.string_of_uint (Nat.to_uint n)).

(** A processed set into which [hash0] ... [hash1000] were added, in that
    order. *)
Definition thousand_and_one : DualWallet.wallet_state :=
  {| DualWallet.pending_invoices := [];
     DualWallet.processed_payments := map numbered (seq 0 1001);
     DualWallet.last_check_time := 0 |}.

(** An enumeration of a set, as permitted by Python: the elements, each
    once, in an order of the runtime's choosing. *)
Definition enumeration (set_order : list string -> list string) : Prop :=
  forall s, Permutation (set_order s) s.

(** The enumeration in which the elements added last come first. *)
Definition newest_first (s : list string) : list string := rev s.

(** ** Notions used to reason about the scans *)

(** The test [min_payment_amount > 0 and amount_sats < min_payment_amount]. *)
Definition below_minimum (cfg : wallet_config) (p : payment) : bool :=
  (0 <? min_payment_amount cfg)
  && (PyNum.msat_to_sats (get_amount p) <? min_payment_amount cfg).

(** [st'] knows every identifier that [st] knows. *)
Definition grows (st st' : DualWallet.wallet_state) : Prop :=
  (forall h, PySet.mem h (DualWallet.processed_payments st) = true ->
             PySet.mem h (DualWallet.processed_payments st') = true)
  /\ (forall h, PyDict.mem h (DualWallet.pending_invoices st) = true ->
                PyDict.mem h (DualWallet.pending_invoices st') = true).

(** Record [p] has been dealt with in state [st], for a watermark that is
    at least [W]: it is not incoming, or its identifier is processed, or it
    is above the minimum and either has no usable timestamp, or is older
    than [W], or is unpaid and already pending. *)
Definition settled (parse_payment_time : string -> option Z)
    (cfg : wallet_config) (W : Z) (st : DualWallet.wallet_state)
    (p : payment) : Prop :=
  get_amount p <= 0
  \/ PySet.mem (get_payment_hash p) (DualWallet.processed_payments st) = true
  \/ (below_minimum cfg p = false
      /\ match DualWallet.payment_timestamp parse_payment_time p with
         | None => True
         | Some t =>
             t < W
             \/ (get_paid p = false
                 /\ PyDict.mem (get_payment_hash p)
                               (DualWallet.pending_invoices st) = true)
         end).

(** The single wallet monitor knows identifier [h]. *)
Definition known (st : Polling.monitor) (h : string) : bool :=
  PyDict.mem h (Polling.pending_invoices st)
  || PySet.mem h (Polling.processed_payments st).

(** A list endpoint that already shows the invoice of the examples, first
    unpaid, then paid; the ledger stamps it with its own clock, which runs
    five minutes ahead of the monitor's. *)
Definition listed (paid : bool) : payment :=
  {| pay_amount := Some 5000;
     pay_payment_hash := Some invoice_hash;
     pay_checking_id := Some invoice_hash;
     pay_memo := Some "pint"%string;
     pay_paid := Some paid;
     pay_time := Some "2024-01-01T00:05:10Z"%string;
     pay_created_at := None; pay_paid_at := None; pay_date := None |}.

(** The monitor's clock at startup and at its first two scans. *)
Definition at_startup : Z := 1704067200000000.
Definition at_first_scan : Z := at_startup + 11000000.
Definition at_second_scan : Z := at_startup + 12000000.

(** A payment object without ['payment_hash'] and without ['checking_id'],
    7 sats, stamped five seconds after startup. *)
Definition anonymous (paid : bool) : payment :=
  {| pay_amount := Some 7000;
     pay_payment_hash := None;
     pay_checking_id := None;
     pay_memo := None;
     pay_paid := Some paid;
     pay_time := Some "2024-01-01T00:00:05Z"%string;
     pay_created_at := None; pay_paid_at := None; pay_date := None |}.

(** What holds of the single wallet monitor and of the events it has
    emitted so far: the keys of the pending map are distinct, no pending
    identifier is processed, an identifier that is not processed was never
    activated, and no identifier was activated twice. *)
Definition polling_invariant (st : Polling.monitor) (tr : list event) : Prop :=
  NoDup (PyDict.keys (Polling.pending_invoices st))
  /\ (forall h, PyDict.mem h (Polling.pending_invoices st) = true ->
                PySet.mem h (Polling.processed_payments st) = false)
  /\ (forall h, PySet.mem h (Polling.processed_payments st) = false ->
                activations h tr = 0%nat)
  /\ (forall h, (activations h tr <= 1)%nat).

(** The clock reading that a tick of the dual wallet monitor carries. *)
Definition tick_clock (t : DualWallet.tick) : Z :=
  match t with
  | DualWallet.ScanTick _ current_time => current_time
  | DualWallet.CheckTick _ now => now
  end.

(** The clock never runs backwards along the ticks, starting from [t0]. *)
Fixpoint clock_advances (t0 : Z) (ticks : list DualWallet.tick) : Prop :=
  match ticks with
  | [] => True
  | t :: rest => t0 <= tick_clock t /\ clock_advances (tick_clock t) rest
  end.

(** The last reading of the clock: [t0] when there was no tick. *)
Definition last_reading (t0 : Z) (ticks : list DualWallet.tick) : Z :=
  fold_left (fun _ t => tick_clock t) ticks t0.

(** ** The rest of the dual wallet monitor: outputs, startup checks, the
    polling loop *)

Module DualWalletRun.
Import Actuator.

(** The loop of [setup_gpio], when the driver accepts every call: each
    relay is made an output and lowered. *)
Definition setup_gpio (wallets : list wallet_config) (g : gpio) : gpio :=
  fold_left (fun acc wallet => GPIO_output acc (relay_pin wallet) LOW)
            wallets g.

(** The loop of [cleanup_gpio]: each relay is lowered (the channels are
    released afterwards, which the latches do not show). *)
Definition cleanup_gpio (wallets : list wallet_config) (g : gpio) : gpio :=
  fold_left (fun acc wallet => GPIO_output acc (relay_pin wallet) LOW)
            wallets g.

(** [setup_wallet_states]; each wallet comes with the clock reading taken
    for its watermark.  Two wallets with one [wallet_id] end up with one
    state, the second one's. *)
Definition setup_wallet_states (wallets : list (wallet_config * Z))
  : PyDict.dict DualWallet.wallet_state :=
  fold_left
    (fun states entry =>
       PyDict.set (wallet_id (fst entry))
                  (DualWallet.setup_wallet_state (snd entry)) states)
    wallets [].

(** What the ledger and the clock give to one wallet in one turn of the
    loop of [run]. *)
Record answers : Type := {
  list_answer : http_response (list payment);
  scan_time : Z;
  status_answer : string -> http_response payment;
  check_time : Z
}.

Section Loop.
Variable parse_payment_time : string -> option Z.

(** The body of [for wallet_config in self.wallets]: the state of the
    wallet is looked up by [wallet_id] ([None] is the [KeyError] of a
    missing key), scanned, then checked; the state is updated in place. *)
Definition poll_wallet (states : PyDict.dict DualWallet.wallet_state)
    (wallet : wallet_config) (a : answers)
  : option (PyDict.dict DualWallet.wallet_state * list event) :=
  match PyDict.get (wallet_id wallet) states with
  | None => None
  | Some wallet_state =>
      let '(st1, tr1) :=
        DualWallet.scan_for_recent_payments parse_payment_time wallet
          wallet_state (list_answer a) (scan_time a) in
      let '(st2, tr2) :=
        DualWallet.check_pending_payments wallet st1
          (status_answer a) (check_time a) in
      Some (PyDict.set (wallet_id wallet) st2 states, tr1 ++ tr2)
  end.

Fixpoint poll_wallets (states : PyDict.dict DualWallet.wallet_state)
    (polls : list (wallet_config * answers))
  : option (PyDict.dict DualWallet.wallet_state * list event) :=
  match polls with
  | [] => Some (states, [])
  | (wallet, a) :: rest =>
      match poll_wallet states wallet a with
      | None => None
      | Some (states1, tr1) =>
          match poll_wallets states1 rest with
          | None => None
          | Some (states2, tr2) => Some (states2, tr1 ++ tr2)
          end
      end
  end.
End Loop.

(** The periodic cleanup of the loop of [run]: the counter is advanced, and
    every 300th turn the processed sets are cut down. *)
Definition housekeeping (set_order : list string -> list string)
    (cleanup_counter : Z) (states : PyDict.dict DualWallet.wallet_state)
  : Z * PyDict.dict DualWallet.wallet_state :=
  let cleanup_counter := cleanup_counter + 1 in
  (cleanup_counter,
   if cleanup_counter mod 300 =? 0
   then DualWallet.cleanup_old_processed_payments set_order states
   else states).

(** The keys of a wallet configuration that [main] reads and that
    [wallet_config] leaves out. *)
Record wallet_settings : Type := {
  config : wallet_config;
  lnbits_url : string;
  api_key : string
}.

(** [str(i)] *)
Definition index_string (i : nat) : string :=
  NilEmpty.string_of_uint (Nat.to_uint i).

(** The three tests that [main] makes on wallet number [i]. *)
Definition placeholders_of (i : nat) (wallet : wallet_settings) : list string :=
  (if String.eqb (lnbits_url wallet) "https://your-lnbits-server.com"
   then [String.append "WALLET_"
           (String.append (index_string i) "_CONFIG['lnbits_url']")]
   else [])
  ++ (if String.eqb (api_key wallet)
           (String.append "your-wallet-"
              (String.append (index_string i) "-api-key"))
      then [String.append "WALLET_"
              (String.append (index_string i) "_CONFIG['api_key']")]
      else [])
  ++ (if String.eqb (wallet_id (config wallet))
           (String.append "your-wallet-"
              (String.append (index_string i) "-id"))
      then [String.append "WALLET_"
              (String.append (index_string i) "_CONFIG['wallet_id']")]
      else []).

(** [missing_config], as [main] builds it. *)
Definition missing_config (w1 w2 : wallet_settings) : list string :=
  placeholders_of 1 w1 ++ placeholders_of 2 w2
  ++ (if relay_pin (config w1) =? relay_pin (config w2)
      then ["GPIO pins must be different for each wallet"%string]
      else []).

(** How [main] ends: [sys.exit(1)] after printing the items, or the monitor
    is created and run. *)
Inductive main_outcome : Type :=
| SysExit (code : Z) (items : list string)
| MonitorRuns.

Definition main (w1 w2 : wallet_settings) : main_outcome :=
  match missing_config w1 w2 with
  | [] => MonitorRuns
  | items => SysExit 1 items
  end.

End DualWalletRun.

(** The solenoid is never activated for less than the minimum of the
    wallet, when there is one, nor for a negative amount. *)
Definition meets_minimum (cfg : wallet_config) (amount_sats : Z) : Prop :=
  0 <= amount_sats
  /\ (0 < min_payment_amount cfg -> min_payment_amount cfg <= amount_sats).

(** The state that one turn of the polling loop gives to a wallet: that of
    its scan followed by its check. *)
Definition polled (parse_payment_time : string -> option Z)
    (wallet : wallet_config) (a : DualWalletRun.answers)
    (st : DualWallet.wallet_state) : DualWallet.wallet_state :=
  fst (DualWallet.check_pending_payments wallet
         (fst (DualWallet.scan_for_recent_payments parse_payment_time wallet
                 st (DualWalletRun.list_answer a) (DualWalletRun.scan_time a)))
         (DualWalletRun.status_answer a) (DualWalletRun.check_time a)).

(** The test [amount > 0] that lets a record into the scan. *)
Definition incoming (p : payment) : bool := 0 <? get_amount p.

(** Answers for one turn of the loop on the wallets of the examples. *)
Definition example_answers (paid : bool) : DualWalletRun.answers :=
  {| DualWalletRun.list_answer := Response 200 [listed paid];
     DualWalletRun.scan_time := at_first_scan;
     DualWalletRun.status_answer := ledger_unpaid;
     DualWalletRun.check_time := at_first_scan |}.

(** A payment sent from the wallet: a negative amount. *)
Definition outgoing_payment : payment :=
  {| pay_amount := Some (-21000);
     pay_payment_hash := Some "c0ffee"%string;
     pay_checking_id := Some "c0ffee"%string;
     pay_memo := None;
     pay_paid := Some true;
     pay_time := Some "2024-01-01T00:00:05Z"%string;
     pay_created_at := None; pay_paid_at := None; pay_date := None |}.

(** A monitor of wallet 1 that was set up ten minutes after the startup of
    the examples: its watermark is eight minutes after that startup, later
    than the stamp of the listed invoice. *)
Definition started_later : DualWallet.wallet_state :=
  DualWallet.setup_wallet_state (at_startup + 600000000).

(** What one field of a payment object gives to the timestamp loop: the
    parsed instant when the field is present, not empty, and parses. *)
Definition usable_time (parse_payment_time : string -> option Z)
    (field : option string) : option Z :=
  match field with
  | None => None
  | Some time_str =>
      if String.eqb time_str EmptyString then None
      else parse_payment_time time_str
  end.

(** A payment object whose ['time'] does not parse, and which carries both
    a ['created_at'] and a later ['date']. *)
Definition twice_stamped : payment :=
  {| pay_amount := Some 5000;
     pay_payment_hash := Some invoice_hash;
     pay_checking_id := Some invoice_hash;
     pay_memo := None;
     pay_paid := Some true;
     pay_time := Some "soon"%string;
     pay_created_at := Some "2024-01-01T00:05:10Z"%string;
     pay_paid_at := None;
     pay_date := Some "2024-01-02T00:00:00Z"%string |}.

(** ** Rounding *)

Section Rounding.
Import PyNum.
Local Open Scope Q_scope.

Lemma round_half_even_cases (q : Q) :
  round_half_even q = Qfloor q \/ round_half_even q = (Qfloor q + 1)%Z.
Proof.
  unfold round_half_even.
  destruct (Qcompare _ _); [destruct (Z.even _) | |]; auto.
Qed.

Lemma round_half_even_ge (q : Q) (z : Z) :
  inject_Z z <= q -> (z <= round_half_even q)%Z.
Proof.
  intros H. apply Qfloor_resp_le in H. rewrite Qfloor_Z in H.
  destruct (round_half_even_cases q) as [-> | ->]; lia.
Qed.

Lemma round_half_even_le (q : Q) (z : Z) :
  q <= inject_Z z -> (round_half_even q <= z)%Z.
Proof.
  intros H.
  assert (Hf : (Qfloor q <= z)%Z).
  { apply Qfloor_resp_le in H. now rewrite Qfloor_Z in H. }
  destruct (Z.eq_dec (Qfloor q) z) as [E | N].
  - assert (Hq : q - inject_Z (Qfloor q) < 1 # 2).
    { rewrite E. apply Qle_lt_trans with (y := 0); [| reflexivity].
      apply (Qplus_le_l _ _ (inject_Z z)). ring_simplify. exact H. }
    assert (C : (q - inject_Z (Qfloor q) ?= 1 # 2) = Lt) by (now apply Qlt_alt).
    unfold round_half_even; cbv zeta. rewrite C. lia.
  - destruct (round_half_even_cases q) as [-> | ->]; lia.
Qed.

Lemma round_half_even_comp (p q : Q) :
  p == q -> round_half_even p = round_half_even q.
Proof.
  intros E. unfold round_half_even; cbv zeta.
  rewrite (Qfloor_comp _ _ E).
  assert (C : (p - inject_Z (Qfloor q) ?= 1 # 2)
              = (q - inject_Z (Qfloor q) ?= 1 # 2)).
  { apply Qcompare_comp; [now rewrite E | reflexivity]. }
  now rewrite C.
Qed.


Lemma tenths_scaled (k : Z) : (k # 10) * inject_Z 10 == inject_Z k.
Proof. unfold Qeq, Qmult, inject_Z; simpl. lia. Qed.


End Rounding.

(** ** Duration calculator *)


Section Duration.
Local Open Scope Q_scope.

Lemma truediv_nonzero (a b : Q) : 0 < b -> PyNum.truediv a b = Some (a / b).
Proof.
  intros Hb. unfold PyNum.truediv.
  destruct (Qeq_bool b 0) eqn:E; [| reflexivity].
  apply Qeq_bool_eq in E. rewrite E in Hb. discriminate.
Qed.

Lemma rate_sign (q : Q) : Qle_bool q 0 = false -> 0 < q.
Proof.
  intros E. apply Qnot_le_lt. intros H. apply Qle_bool_iff in H. congruence.
Qed.
End Duration.




(** ** Containers *)

Lemma filter_twice {A : Type} (f g : A -> bool) (l : list A) :
  filter f (filter g l) = filter (fun x => g x && f x) l.
Proof.
  induction l as [| x l IH]; simpl; [reflexivity |].
  destruct (g x); simpl; [destruct (f x) |]; now rewrite IH.
Qed.

Section SetFacts.
Import PySet.

Lemma mem_In (x : string) (s : pyset) : mem x s = true <-> In x s.
Proof.
  unfold mem. rewrite existsb_exists. split.
  - intros (y & Hy & E). apply String.eqb_eq in E. now subst.
  - intros H. exists x. split; [exact H | apply String.eqb_refl].
Qed.

Lemma mem_app (x : string) (s t : pyset) :
  mem x (s ++ t) = mem x s || mem x t.
Proof. unfold mem. apply existsb_app. Qed.

Lemma mem_add (y x : string) (s : pyset) :
  mem y (add x s) = String.eqb y x || mem y s.
Proof.
  unfold add. destruct (mem x s) eqn:E.
  - destruct (String.eqb_spec y x) as [-> | _]; [now rewrite E | reflexivity].
  - rewrite mem_app. simpl. now rewrite orb_false_r, orb_comm.
Qed.

Lemma add_present (x : string) (s : pyset) : mem x s = true -> add x s = s.
Proof. unfold add. now intros ->. Qed.

Lemma add_NoDup (x : string) (s : pyset) : NoDup s -> NoDup (add x s).
Proof.
  intros H. unfold add. destruct (mem x s) eqn:E; [exact H |].
  apply NoDup_app; [exact H | repeat constructor; intros [] |].
  intros y Hy [<- | []]. apply mem_In in Hy. congruence.
Qed.

Lemma mem_add_all (y : string) (ks : list string) (s : pyset) :
  mem y (fold_left (fun acc k => add k acc) ks s)
  = existsb (String.eqb y) ks || mem y s.
Proof.
  revert s. induction ks as [| k ks IH]; intros s; simpl; [reflexivity |].
  rewrite IH, mem_add. now destruct (String.eqb y k), (existsb _ ks), (mem y s).
Qed.
End SetFacts.

Section DictFacts.
Import PyDict.
Context {V : Type}.
Implicit Types (d : dict V) (k : string).

Lemma mem_keys k d : mem k d = true <-> In k (keys d).
Proof.
  unfold mem. induction d as [| [k' v] d IH]; simpl.
  - split; [discriminate | intros []].
  - destruct (String.eqb_spec k k') as [-> | N].
    + split; auto.
    + rewrite IH. split; [auto | intros [E | H]; [congruence | exact H]].
Qed.

Lemma get_In k (v : V) d : get k d = Some v -> In (k, v) d.
Proof.
  induction d as [| [k' v'] d IH]; simpl; [discriminate |].
  destruct (String.eqb_spec k k') as [-> | N].
  - intros [= ->]. now left.
  - intros H. right. auto.
Qed.

Lemma In_get k (v : V) d : NoDup (keys d) -> In (k, v) d -> get k d = Some v.
Proof.
  induction d as [| [k' v'] d IH]; simpl; [intros _ [] |].
  intros Hnd [E | H]; inversion Hnd as [| ? ? Hk Hd]; subst.
  - inversion E; subst. now rewrite String.eqb_refl.
  - destruct (String.eqb_spec k k') as [-> | N]; [| auto].
    exfalso. apply Hk. change (In (fst (k', v)) (keys d)). now apply in_map.
Qed.

Lemma keys_filter_incl (f : string * V -> bool) d x :
  In x (keys (filter f d)) -> In x (keys d).
Proof.
  unfold keys. rewrite !in_map_iff. intros (it & E & H).
  apply filter_In in H. exists it. tauto.
Qed.

Lemma keys_filter_NoDup (f : string * V -> bool) d :
  NoDup (keys d) -> NoDup (keys (filter f d)).
Proof.
  induction d as [| [k v] d IH]; simpl; [auto |].
  intros Hnd. inversion Hnd as [| ? ? Hk Hd]; subst.
  destruct (f (k, v)); simpl; [| auto].
  constructor; [| auto]. intros H. apply Hk. eapply keys_filter_incl, H.
Qed.

(** With distinct keys, [del] drops every item with that key. *)
Lemma del_filter k d :
  NoDup (keys d) ->
  del k d = filter (fun it => negb (String.eqb k (fst it))) d.
Proof.
  induction d as [| [k' v'] d IH]; simpl; [reflexivity |].
  intros Hnd. inversion Hnd as [| ? ? Hk Hd]; subst.
  destruct (String.eqb_spec k k') as [-> | N]; simpl.
  - symmetry. apply forallb_filter_id. apply forallb_forall.
    intros [k v] Hin. simpl.
    destruct (String.eqb_spec k' k) as [<- | _]; [| reflexivity].
    exfalso. apply Hk. change (In (fst (k', v)) (keys d)). now apply in_map.
  - f_equal. auto.
Qed.

Lemma del_all_filter (ks : list string) d :
  NoDup (keys d) ->
  del_all ks d
  = filter (fun it => negb (existsb (String.eqb (fst it)) ks)) d.
Proof.
  unfold del_all. revert d. induction ks as [| k ks IH]; intros d Hnd; simpl.
  - symmetry. apply forallb_filter_id. now apply forallb_forall.
  - rewrite IH, del_filter by (try rewrite del_filter by assumption;
                               try apply keys_filter_NoDup; assumption).
    rewrite filter_twice. apply filter_ext. intros [k' v']. simpl.
    rewrite (String.eqb_sym k' k).
    now destruct (String.eqb k k'), (existsb (String.eqb k') ks).
Qed.

Lemma keys_set_new k (v : V) d :
  mem k d = false -> keys (set k v d) = keys d ++ [k].
Proof.
  unfold mem. induction d as [| [k' v'] d IH]; simpl; [reflexivity |].
  destruct (String.eqb k k'); [discriminate |]. intros H. simpl. f_equal. auto.
Qed.

Lemma mem_set (k' k : string) (v : V) d :
  mem k' (set k v d) = String.eqb k' k || mem k' d.
Proof.
  unfold mem. induction d as [| [k0 v0] d IH]; simpl.
  - now destruct (String.eqb k' k).
  - destruct (String.eqb_spec k k0) as [-> | N]; simpl.
    + destruct (String.eqb k' k0); reflexivity.
    + destruct (String.eqb_spec k' k0) as [-> | N'].
      * now rewrite orb_true_r.
      * exact IH.
Qed.
End DictFacts.

(** ** The pending check, in closed form *)

Section CheckPending.
Variable ledger : string -> http_response payment.

Lemma sweep_eq (items : PyDict.dict invoice) (processed : PySet.pyset) :
  sweep ledger items processed
  = (add_all (PyDict.keys (paid_items ledger items)) processed,
     PyDict.keys (paid_items ledger items),
     map activation_of (paid_items ledger items)).
Proof.
  revert processed. induction items as [| [h inv] items IH];
    intros processed; simpl; [reflexivity |].
  unfold paid_items, reported_paid in *. simpl.
  destruct (fst (check_specific_payment_status (ledger h))); simpl.
  - now rewrite IH.
  - apply IH.
Qed.

Lemma drop_completed (pending : PyDict.dict invoice) :
  NoDup (PyDict.keys pending) ->
  PyDict.del_all (PyDict.keys (paid_items ledger pending)) pending
  = unpaid_items ledger pending.
Proof.
  intros Hnd. rewrite del_all_filter by assumption.
  apply filter_ext_in. intros [h inv] Hin. simpl. f_equal.
  unfold paid_items, PyDict.keys.
  destruct (reported_paid ledger h) eqn:E.
  - apply existsb_exists. exists h. split; [| apply String.eqb_refl].
    apply in_map_iff. exists (h, inv). split; [reflexivity |].
    apply filter_In. now split.
  - apply not_true_is_false. intros H. apply existsb_exists in H.
    destruct H as (h' & Hin' & Eq). apply String.eqb_eq in Eq. subst h'.
    apply in_map_iff in Hin'. destruct Hin' as ([h' inv'] & Ek & Hf).
    simpl in Ek. subst h'. apply filter_In in Hf. simpl in Hf.
    destruct Hf as [_ Hf]. congruence.
Qed.

Lemma drop_expired (d : PyDict.dict invoice) (cutoff_time : Z) :
  NoDup (PyDict.keys d) ->
  PyDict.del_all (expired_invoices d cutoff_time) d
  = filter (fun item => negb (older_than cutoff_time item)) d.
Proof.
  intros Hnd. rewrite del_all_filter by assumption.
  apply filter_ext_in. intros [h inv] Hin. simpl. f_equal.
  unfold expired_invoices, older_than. simpl.
  destruct (inv_created_time inv <? cutoff_time) eqn:E.
  - apply existsb_exists. exists h. split; [| apply String.eqb_refl].
    apply in_map_iff. exists (h, inv). split; [reflexivity |].
    apply filter_In. now split.
  - apply not_true_is_false. intros H. apply existsb_exists in H.
    destruct H as (h' & Hin' & Eq). apply String.eqb_eq in Eq. subst h'.
    apply in_map_iff in Hin'. destruct Hin' as ([h' inv'] & Ek & Hf).
    simpl in Ek. subst h'. apply filter_In in Hf. simpl in Hf.
    destruct Hf as [Hin2 Hold].
    assert (Some inv' = Some inv) as [= ->].
    { rewrite <- (In_get h inv' d Hnd Hin2). now apply In_get. }
    congruence.
Qed.

(** What [check_pending_payments] leaves in the pending map, adds to the
    processed set and emits, for a pending map with distinct keys. *)
Lemma check_pending_payments_eq (cfg : wallet_config)
    (st : DualWallet.wallet_state) (now : Z) :
  NoDup (PyDict.keys (DualWallet.pending_invoices st)) ->
  DualWallet.check_pending_payments cfg st ledger now
  = ({| DualWallet.pending_invoices :=
          kept_pending ledger (now - hours_24) (DualWallet.pending_invoices st);
        DualWallet.processed_payments :=
          add_all
            (PyDict.keys (paid_items ledger (DualWallet.pending_invoices st)))
            (DualWallet.processed_payments st);
        DualWallet.last_check_time := DualWallet.last_check_time st |},
     check_trace ledger (now - hours_24) (DualWallet.pending_invoices st)).
Proof.
  intros Hnd. unfold DualWallet.check_pending_payments.
  destruct st as [pending processed t]; simpl in *.
  destruct pending as [| it pending]; [reflexivity |].
  rewrite sweep_eq, drop_completed by assumption.
  rewrite drop_expired by (apply keys_filter_NoDup; assumption).
  reflexivity.
Qed.

Lemma polling_check_pending_payments_eq (st : Polling.monitor) (now : Z) :
  NoDup (PyDict.keys (Polling.pending_invoices st)) ->
  Polling.check_pending_payments st ledger now
  = ({| Polling.pending_invoices :=
          kept_pending ledger (now - hours_24) (Polling.pending_invoices st);
        Polling.processed_payments :=
          add_all
            (PyDict.keys (paid_items ledger (Polling.pending_invoices st)))
            (Polling.processed_payments st) |},
     check_trace ledger (now - hours_24) (Polling.pending_invoices st)).
Proof.
  intros Hnd. unfold Polling.check_pending_payments.
  destruct st as [pending processed]; simpl in *.
  destruct pending as [| it pending]; [reflexivity |].
  rewrite sweep_eq, drop_completed by assumption.
  rewrite drop_expired by (apply keys_filter_NoDup; assumption).
  reflexivity.
Qed.
End CheckPending.

(** ** Counting activations *)

Lemma activations_app (h : string) (tr1 tr2 : list event) :
  activations h (tr1 ++ tr2) = (activations h tr1 + activations h tr2)%nat.
Proof. unfold activations. now rewrite filter_app, length_app. Qed.

Lemma activations_expired (h : string) (l : list string) :
  activations h (map Expired l) = 0%nat.
Proof. unfold activations. induction l; simpl; auto. Qed.

Lemma activations_none (h : string) (items : PyDict.dict invoice) :
  ~ In h (PyDict.keys items) -> activations h (map activation_of items) = 0%nat.
Proof.
  unfold activations.
  induction items as [| [k v] items IH]; simpl; [reflexivity |].
  intros Hn. destruct (String.eqb_spec h k) as [-> | N]; [exfalso; auto |].
  apply IH. auto.
Qed.

Lemma activations_once (h : string) (inv : invoice)
    (items : PyDict.dict invoice) :
  NoDup (PyDict.keys items) -> In (h, inv) items ->
  activations h (map activation_of items) = 1%nat.
Proof.
  induction items as [| [k v] items IH]; simpl; [intros _ [] |].
  intros Hnd Hin. inversion Hnd as [| ? ? Hk Hd]; subst.
  change (activations h (activation_of (k, v) :: map activation_of items))
    with (activations h ([activation_of (k, v)] ++ map activation_of items)).
  rewrite activations_app. destruct Hin as [E | Hin].
  - inversion E; subst. rewrite (activations_none h items Hk).
    unfold activations. simpl. now rewrite String.eqb_refl.
  - rewrite (IH Hd Hin). unfold activations. simpl.
    destruct (String.eqb_spec h k) as [-> | N]; [| reflexivity].
    exfalso. apply Hk. change (In (fst (k, inv)) (PyDict.keys items)).
    now apply in_map.
Qed.

Lemma activations_at_most_once (h : string) (items : PyDict.dict invoice) :
  NoDup (PyDict.keys items) ->
  (activations h (map activation_of items) <= 1)%nat.
Proof.
  intros Hnd. destruct (in_dec string_dec h (PyDict.keys items)) as [Hin | Hn].
  - apply in_map_iff in Hin. destruct Hin as ([k v] & E & Hin).
    simpl in E; subst.
    rewrite (activations_once h v items Hnd Hin). lia.
  - rewrite activations_none by assumption. lia.
Qed.

Lemma In_activate_activations (a : Z) (h : string) (tr : list event) :
  In (Activate a h) tr -> (1 <= activations h tr)%nat.
Proof.
  unfold activations. induction tr as [| e tr IH]; simpl; [intros [] |].
  intros [-> | H]; simpl.
  - rewrite String.eqb_refl. simpl. lia.
  - specialize (IH H). destruct (is_activate_of h e); simpl; lia.
Qed.

Lemma in_keys_of (h : string) (inv : invoice) (d : PyDict.dict invoice) :
  In (h, inv) d -> In h (PyDict.keys d).
Proof. intros H. change h with (fst (h, inv)). now apply in_map. Qed.

Lemma paid_items_keys (ledger : string -> http_response payment)
    (h : string) (d : PyDict.dict invoice) :
  In h (PyDict.keys (paid_items ledger d)) ->
  reported_paid ledger h = true /\ In h (PyDict.keys d).
Proof.
  unfold paid_items, PyDict.keys. rewrite in_map_iff.
  intros ([k v] & E & H). simpl in E; subst. apply filter_In in H.
  destruct H as [H1 H2]. split; [exact H2 | now apply in_keys_of with v].
Qed.

Lemma mem_add_all_keys (y : string) (ks : list string) (s : PySet.pyset) :
  PySet.mem y (add_all ks s) = existsb (String.eqb y) ks || PySet.mem y s.
Proof. apply mem_add_all. Qed.

Lemma existsb_eqb_In (y : string) (ks : list string) :
  existsb (String.eqb y) ks = true <-> In y ks.
Proof. apply (mem_In y ks). Qed.

(** ** The fate of one pending entry in a check *)

Lemma entry_unique {V : Type} (h : string) (v v' : V) (d : PyDict.dict V) :
  NoDup (PyDict.keys d) -> In (h, v) d -> In (h, v') d -> v = v'.
Proof.
  intros Hnd H H'.
  apply (In_get h v d Hnd) in H. apply (In_get h v' d Hnd) in H'.
  congruence.
Qed.

Lemma in_expired_invoices (h : string) (d : PyDict.dict invoice) (cutoff : Z) :
  In h (expired_invoices d cutoff) <->
  exists inv, In (h, inv) d /\ inv_created_time inv < cutoff.
Proof.
  unfold expired_invoices. rewrite in_map_iff. split.
  - intros ([k v] & E & H). simpl in E; subst. apply filter_In in H.
    destruct H as [H1 H2]. simpl in H2. exists v. split; [exact H1 | lia].
  - intros (inv & H1 & H2). exists (h, inv). split; [reflexivity |].
    apply filter_In. split; [exact H1 | simpl; lia].
Qed.

Lemma in_unpaid_items (ledger : string -> http_response payment)
    (h : string) (inv : invoice) (d : PyDict.dict invoice) :
  In (h, inv) (unpaid_items ledger d) <->
  In (h, inv) d /\ reported_paid ledger h = false.
Proof.
  unfold unpaid_items. rewrite filter_In. simpl.
  now destruct (reported_paid ledger h).
Qed.

Lemma in_paid_items (ledger : string -> http_response payment)
    (h : string) (inv : invoice) (d : PyDict.dict invoice) :
  In (h, inv) (paid_items ledger d) <->
  In (h, inv) d /\ reported_paid ledger h = true.
Proof. unfold paid_items. now rewrite filter_In. Qed.

Lemma expired_not_activation (h : string) (items : PyDict.dict invoice) :
  ~ In (Expired h) (map activation_of items).
Proof. rewrite in_map_iff. intros (it & E & _). discriminate. Qed.

Lemma in_map_expired (h : string) (l : list string) :
  In (Expired h) (map Expired l) <-> In h l.
Proof.
  rewrite in_map_iff. split.
  - intros (x & [= ->] & H). exact H.
  - intros H. now exists h.
Qed.

Section EntryFate.
Variable ledger : string -> http_response payment.
Variable pending : PyDict.dict invoice.
Variable processed : PySet.pyset.
Variable cutoff : Z.
Hypothesis distinct_keys : NoDup (PyDict.keys pending).

Lemma in_kept_pending (h : string) (inv : invoice) :
  In (h, inv) (kept_pending ledger cutoff pending) <->
  In (h, inv) pending /\ reported_paid ledger h = false
  /\ cutoff <= inv_created_time inv.
Proof.
  unfold kept_pending. rewrite filter_In, in_unpaid_items. unfold older_than.
  simpl. rewrite negb_true_iff, Z.ltb_ge. tauto.
Qed.

Lemma mem_kept_pending_false (h : string) :
  (forall inv, In (h, inv) pending ->
               reported_paid ledger h = true
               \/ inv_created_time inv < cutoff) ->
  PyDict.mem h (kept_pending ledger cutoff pending) = false.
Proof.
  intros H. apply not_true_is_false. intros Hm. apply mem_keys in Hm.
  apply in_map_iff in Hm. destruct Hm as ([k v] & E & Hin). simpl in E; subst.
  apply in_kept_pending in Hin. destruct Hin as (Hin & Hu & Hc).
  destruct (H v Hin) as [Hp | Ho]; [congruence | lia].
Qed.

Lemma expired_in_trace (h : string) :
  In (Expired h) (check_trace ledger cutoff pending) <->
  exists inv, In (h, inv) pending /\ reported_paid ledger h = false
              /\ inv_created_time inv < cutoff.
Proof.
  unfold check_trace.
  rewrite in_app_iff, in_map_expired, in_expired_invoices. split.
  - intros [H | (inv & H1 & H2)].
    + now apply expired_not_activation in H.
    + apply in_unpaid_items in H1. exists inv. tauto.
  - intros (inv & H1 & H2 & H3). right. exists inv.
    rewrite in_unpaid_items. tauto.
Qed.

Lemma activations_in_trace (h : string) :
  activations h (check_trace ledger cutoff pending)
  = activations h (map activation_of (paid_items ledger pending)).
Proof.
  unfold check_trace. rewrite activations_app, activations_expired. lia.
Qed.

Lemma fate_paid (h : string) (inv : invoice) :
  In (h, inv) pending -> reported_paid ledger h = true ->
  PyDict.mem h (kept_pending ledger cutoff pending) = false
  /\ PySet.mem h (add_all (PyDict.keys (paid_items ledger pending)) processed)
     = true
  /\ In (Activate (inv_amount inv) h) (check_trace ledger cutoff pending)
  /\ activations h (check_trace ledger cutoff pending) = 1%nat
  /\ ~ In (Expired h) (check_trace ledger cutoff pending).
Proof.
  intros Hin Hp.
  assert (Hpaid : In (h, inv) (paid_items ledger pending))
    by (apply in_paid_items; tauto).
  repeat split.
  - apply mem_kept_pending_false. auto.
  - rewrite mem_add_all_keys.
    apply orb_true_iff. left. apply existsb_eqb_In.
    now apply in_keys_of with inv.
  - unfold check_trace. apply in_or_app. left.
    change (Activate (inv_amount inv) h) with (activation_of (h, inv)).
    now apply in_map.
  - rewrite activations_in_trace.
    apply activations_once with inv; [| exact Hpaid].
    now apply keys_filter_NoDup.
  - rewrite expired_in_trace. intros (inv' & _ & Hu & _). congruence.
Qed.

Lemma fate_unpaid (h : string) (inv : invoice) :
  In (h, inv) pending -> reported_paid ledger h = false ->
  activations h (check_trace ledger cutoff pending) = 0%nat
  /\ PySet.mem h (add_all (PyDict.keys (paid_items ledger pending)) processed)
     = PySet.mem h processed
  /\ (inv_created_time inv < cutoff ->
      PyDict.mem h (kept_pending ledger cutoff pending) = false
      /\ In (Expired h) (check_trace ledger cutoff pending))
  /\ (cutoff <= inv_created_time inv ->
      In (h, inv) (kept_pending ledger cutoff pending)
      /\ ~ In (Expired h) (check_trace ledger cutoff pending)).
Proof.
  intros Hin Hu.
  assert (Hnot : ~ In h (PyDict.keys (paid_items ledger pending))).
  { intros H. apply paid_items_keys in H. destruct H. congruence. }
  repeat split.
  - rewrite activations_in_trace. now apply activations_none.
  - rewrite mem_add_all_keys.
    destruct (existsb (String.eqb h) _) eqn:E; [| reflexivity].
    apply existsb_eqb_In in E. contradiction.
  - apply mem_kept_pending_false. intros inv' Hin'.
    rewrite (entry_unique h inv' inv pending distinct_keys Hin' Hin). now right.
  - apply expired_in_trace. exists inv. tauto.
  - apply in_kept_pending. tauto.
  - rewrite expired_in_trace. intros (inv' & Hin' & _ & Ho).
    rewrite (entry_unique h inv' inv pending distinct_keys Hin' Hin) in Ho. lia.
Qed.
End EntryFate.

(** ** The keys of the pending map stay distinct

    The theorems on [check_pending_payments] assume a pending map with
    distinct keys, as a [dict] has; the monitor never builds another. *)

Section DistinctKeys.
Variable parse_payment_time : string -> option Z.
Variable cfg : wallet_config.

Lemma scan_payment_keys (st : DualWallet.wallet_state) (p : payment) :
NoDup (PyDict.keys (DualWallet.pending_invoices st)) ->
NoDup (PyDict.keys
         (DualWallet.pending_invoices
            (fst (DualWallet.scan_payment parse_payment_time cfg st p)))).
Proof.
intros Hnd. unfold DualWallet.scan_payment.
destruct (get_amount p <=? 0); [exact Hnd |].
destruct (PySet.mem _ _); [exact Hnd |].
destruct (_ && _); [exact Hnd |].
destruct (DualWallet.payment_timestamp parse_payment_time p) as [t |];
  [| exact Hnd].
destruct (DualWallet.last_check_time st <=? t); [| exact Hnd].
destruct (get_paid p); [exact Hnd |].
destruct (PyDict.mem (get_payment_hash p) (DualWallet.pending_invoices st))
  eqn:Hmem; [exact Hnd |].
simpl. rewrite keys_set_new by assumption.
apply NoDup_app; [exact Hnd | repeat constructor; intros [] |].
intros h Hh [<- | []]. apply mem_keys in Hh. congruence.
Qed.

Lemma scan_loop_keys (payments : list payment) (st : DualWallet.wallet_state) :
NoDup (PyDict.keys (DualWallet.pending_invoices st)) ->
NoDup (PyDict.keys
         (DualWallet.pending_invoices
            (fst (DualWallet.scan_loop parse_payment_time cfg payments st)))).
Proof.
revert st. induction payments as [| p rest IH]; intros st Hnd; simpl;
  [exact Hnd |].
pose proof (scan_payment_keys st p Hnd) as H1.
destruct (DualWallet.scan_payment parse_payment_time cfg st p) as [st1 tr1].
specialize (IH st1 H1).
destruct (DualWallet.scan_loop parse_payment_time cfg rest st1) as [st2 tr2].
exact IH.
Qed.

Lemma do_tick_keys (st : DualWallet.wallet_state) (t : DualWallet.tick) :
NoDup (PyDict.keys (DualWallet.pending_invoices st)) ->
NoDup (PyDict.keys
         (DualWallet.pending_invoices
            (fst (DualWallet.do_tick parse_payment_time cfg st t)))).
Proof.
intros Hnd. destruct t as [r current_time | ledger now]; simpl.
- unfold DualWallet.scan_for_recent_payments.
  destruct (get_recent_payments r) as [[| p rest] |]; try exact Hnd.
  pose proof (scan_loop_keys (p :: rest) st Hnd) as H.
  destruct (DualWallet.scan_loop parse_payment_time cfg (p :: rest) st).
  exact H.
- rewrite check_pending_payments_eq by assumption. simpl.
  unfold kept_pending, unpaid_items.
  now apply keys_filter_NoDup, keys_filter_NoDup.
Qed.

Lemma run_ticks_keys (ticks : list DualWallet.tick)
  (st : DualWallet.wallet_state) :
NoDup (PyDict.keys (DualWallet.pending_invoices st)) ->
NoDup (PyDict.keys
         (DualWallet.pending_invoices
            (fst (DualWallet.run_ticks parse_payment_time cfg st ticks)))).
Proof.
revert st. induction ticks as [| t rest IH]; intros st Hnd; simpl;
  [exact Hnd |].
pose proof (do_tick_keys st t Hnd) as H1.
destruct (DualWallet.do_tick parse_payment_time cfg st t) as [st1 tr1].
specialize (IH st1 H1).
destruct (DualWallet.run_ticks parse_payment_time cfg st1 rest) as [st2 tr2].
exact IH.
Qed.

Lemma reachable_keys_distinct (now : Z) (ticks : list DualWallet.tick) :
NoDup (PyDict.keys
         (DualWallet.pending_invoices
            (fst (DualWallet.run_ticks parse_payment_time cfg
                    (DualWallet.setup_wallet_state now) ticks)))).
Proof. apply run_ticks_keys. constructor. Qed.
End DistinctKeys.

(** ** Properties of [check_pending_payments] *)

Lemma transport_error_not_paid (ledger : string -> http_response payment)
    (h : string) :
  transport_error (ledger h) -> reported_paid ledger h = false.
Proof.
  unfold transport_error, reported_paid, check_specific_payment_status.
  destruct (ledger h) as [| code data]; [reflexivity |].
  intros H. destruct (Z.eqb_spec code 200); [contradiction | reflexivity].
Qed.

Lemma sweep_ext (ledger ledger' : string -> http_response payment)
    (items : PyDict.dict invoice) (processed : PySet.pyset) :
  (forall h, reported_paid ledger' h = reported_paid ledger h) ->
  sweep ledger' items processed = sweep ledger items processed.
Proof.
  intros Hsame. revert processed.
  induction items as [| [h inv] items IH]; intros processed; simpl;
    [reflexivity |].
  fold (reported_paid ledger' h). fold (reported_paid ledger h).
  rewrite Hsame. destruct (reported_paid ledger h); now rewrite IH.
Qed.

Lemma check_events (cfg : wallet_config) (st : DualWallet.wallet_state)
    (ledger : string -> http_response payment) (now : Z) (a : Z) (h : string) :
  In (Activate a h)
     (snd (DualWallet.check_pending_payments cfg st ledger now)) ->
  In (Activate a h)
     (map activation_of (paid_items ledger (DualWallet.pending_invoices st))).
Proof.
  unfold DualWallet.check_pending_payments.
  destruct (DualWallet.pending_invoices st) as [| it items] eqn:E;
    [intros [] |].
  rewrite sweep_eq. simpl snd. rewrite in_app_iff. intros [H | H]; [exact H |].
  apply in_map_iff in H. destruct H as (x & Hx & _). discriminate.
Qed.

(** C4 (as amended).  A pending entry discovered more than 24 hours before
    the check, and which the status endpoint does not report as paid, is
    removed from the pending map by [check_pending_payments] without any
    activation for it; the check logs its expiry and does not add its
    identifier to the processed set. *)
Theorem expired_invoice_removed_without_activation
    (cfg : wallet_config) (st st' : DualWallet.wallet_state)
    (ledger : string -> http_response payment) (now : Z)
    (h : string) (inv : invoice) (tr : list event) :
  NoDup (PyDict.keys (DualWallet.pending_invoices st)) ->
  In (h, inv) (DualWallet.pending_invoices st) ->
  hours_24 < now - inv_created_time inv ->
  reported_paid ledger h = false ->
  DualWallet.check_pending_payments cfg st ledger now = (st', tr) ->
  PyDict.mem h (DualWallet.pending_invoices st') = false
  /\ activations h tr = 0%nat
  /\ In (Expired h) tr
  /\ PySet.mem h (DualWallet.processed_payments st')
     = PySet.mem h (DualWallet.processed_payments st).
Proof.
  intros Hnd Hin Hold Hu Hrun.
  rewrite check_pending_payments_eq in Hrun by assumption.
  cbv zeta in Hrun. injection Hrun as <- <-. simpl.
  destruct (fate_unpaid ledger _ (DualWallet.processed_payments st)
              (now - hours_24) Hnd h inv Hin Hu) as (Ha & Hp & Hexp & _).
  destruct Hexp as [Hm He]; [lia |]. auto.
Qed.

(** The amended statement at the invoice of the examples, 25 hours old and
    still unpaid. *)
Lemma expired_invoice_removed_at_day_old_state :
  PyDict.mem invoice_hash
    (DualWallet.pending_invoices
       (fst (DualWallet.check_pending_payments
               WALLET_1_CONFIG day_old_state ledger_unpaid after_25_hours)))
  = false
  /\ activations invoice_hash
       (snd (DualWallet.check_pending_payments
               WALLET_1_CONFIG day_old_state ledger_unpaid after_25_hours))
     = 0%nat.
Proof.
  destruct (expired_invoice_removed_without_activation
              WALLET_1_CONFIG day_old_state
              (fst (DualWallet.check_pending_payments
                      WALLET_1_CONFIG day_old_state ledger_unpaid after_25_hours))
              ledger_unpaid after_25_hours invoice_hash stored_invoice
              (snd (DualWallet.check_pending_payments
                      WALLET_1_CONFIG day_old_state ledger_unpaid after_25_hours)))
    as (H1 & H2 & _).
  - repeat constructor. intros [].
  - left. reflexivity.
  - reflexivity.
  - reflexivity.
  - reflexivity.
  - split; assumption.
Defined.

(** C4, as stated, fails: the expired identifier is not placed into the
    processed set. *)
Lemma expired_invoice_not_marked_processed :
  In (invoice_hash, stored_invoice) (DualWallet.pending_invoices day_old_state)
  /\ hours_24 < after_25_hours - inv_created_time stored_invoice
  /\ reported_paid ledger_unpaid invoice_hash = false
  /\ PySet.mem invoice_hash
       (DualWallet.processed_payments
          (fst (DualWallet.check_pending_payments
                  WALLET_1_CONFIG day_old_state ledger_unpaid after_25_hours)))
     = false.
Proof. repeat split. left. reflexivity. Qed.

(** The same holds in the single wallet monitor. *)
Lemma polling_expiry_without_activation
    (st st' : Polling.monitor)
    (ledger : string -> http_response payment) (now : Z)
    (h : string) (inv : invoice) (tr : list event) :
  NoDup (PyDict.keys (Polling.pending_invoices st)) ->
  In (h, inv) (Polling.pending_invoices st) ->
  hours_24 < now - inv_created_time inv ->
  reported_paid ledger h = false ->
  Polling.check_pending_payments st ledger now = (st', tr) ->
  PyDict.mem h (Polling.pending_invoices st') = false
  /\ activations h tr = 0%nat
  /\ In (Expired h) tr
  /\ PySet.mem h (Polling.processed_payments st')
     = PySet.mem h (Polling.processed_payments st).
Proof.
  intros Hnd Hin Hold Hu Hrun.
  rewrite polling_check_pending_payments_eq in Hrun by assumption.
  cbv zeta in Hrun. injection Hrun as <- <-. simpl.
  destruct (fate_unpaid ledger _ (Polling.processed_payments st)
              (now - hours_24) Hnd h inv Hin Hu) as (Ha & Hp & Hexp & _).
  destruct Hexp as [Hm He]; [lia |]. auto.
Qed.

(** A failed list call leaves the state of the wallet as it was. *)
Lemma failed_list_call_changes_nothing
    (parse_payment_time : string -> option Z) (cfg : wallet_config)
    (st : DualWallet.wallet_state) (r : http_response (list payment))
    (current_time : Z) :
  transport_error r ->
  DualWallet.scan_for_recent_payments parse_payment_time cfg st r current_time
  = (st, []).
Proof.
  unfold DualWallet.scan_for_recent_payments, get_recent_payments,
    transport_error.
  destruct r as [| code body]; [reflexivity |].
  intros H. now destruct (Z.eqb_spec code 200).
Qed.

Lemma polling_failed_list_call_changes_nothing
    (st : Polling.monitor) (r : http_response (list payment))
    (ledger : string -> http_response payment) (now : Z) :
  transport_error r -> Polling.scan_for_new_invoices st r ledger now = st.
Proof.
  unfold Polling.scan_for_new_invoices, get_recent_payments, transport_error.
  destruct r as [| code body]; [reflexivity |].
  intros H. now destruct (Z.eqb_spec code 200).
Qed.

(** C7 (as amended).  A list call that fails (no answer, or a status other
    than 200) leaves the pending map, the processed set and the watermark as
    they were, and nothing is activated.  A status call that fails for a
    pending identifier is taken as "not paid": nothing is activated for that
    identifier, the processed set does not receive it, and the entry stays
    in the pending map unless it was discovered more than 24 hours before
    the check, in which case the check removes it as expired. *)
Theorem transport_error_handling
    (cfg : wallet_config) (st : DualWallet.wallet_state) :
  (forall parse_payment_time r current_time,
      transport_error r ->
      DualWallet.scan_for_recent_payments parse_payment_time cfg st r
        current_time
      = (st, []))
  /\
  (forall ledger now h inv st' tr,
      NoDup (PyDict.keys (DualWallet.pending_invoices st)) ->
      In (h, inv) (DualWallet.pending_invoices st) ->
      transport_error (ledger h) ->
      DualWallet.check_pending_payments cfg st ledger now = (st', tr) ->
      activations h tr = 0%nat
      /\ PySet.mem h (DualWallet.processed_payments st')
         = PySet.mem h (DualWallet.processed_payments st)
      /\ DualWallet.last_check_time st' = DualWallet.last_check_time st
      /\ (now - inv_created_time inv <= hours_24 ->
          In (h, inv) (DualWallet.pending_invoices st'))
      /\ (hours_24 < now - inv_created_time inv ->
          PyDict.mem h (DualWallet.pending_invoices st') = false)).
Proof.
  split.
  - intros. now apply failed_list_call_changes_nothing.
  - intros ledger now h inv st' tr Hnd Hin Herr Hrun.
    apply transport_error_not_paid in Herr.
    rewrite check_pending_payments_eq in Hrun by assumption.
    cbv zeta in Hrun. injection Hrun as <- <-. simpl.
    destruct (fate_unpaid ledger _ (DualWallet.processed_payments st)
                (now - hours_24) Hnd h inv Hin Herr)
      as (Ha & Hp & Hexp & Hkeep).
    repeat split; try assumption.
    + intros Hyoung. apply Hkeep. lia.
    + intros Hold. apply Hexp. lia.
Qed.

(** The amended statement at the invoice of the examples: a list call with
    no answer, and a status call with no answer one hour after discovery. *)
Lemma transport_error_handling_at_fresh_entry :
  DualWallet.scan_for_recent_payments IsoTime.parse WALLET_1_CONFIG
    day_old_state NetworkError after_25_hours = (day_old_state, [])
  /\ In (invoice_hash, stored_invoice)
        (DualWallet.pending_invoices
           (fst (DualWallet.check_pending_payments
                   WALLET_1_CONFIG day_old_state ledger_down 3600000000))).
Proof.
  destruct (transport_error_handling WALLET_1_CONFIG day_old_state)
    as [Hscan Hcheck].
  split.
  - apply Hscan. exact I.
  - destruct (Hcheck ledger_down 3600000000 invoice_hash stored_invoice
                (fst (DualWallet.check_pending_payments
                        WALLET_1_CONFIG day_old_state ledger_down 3600000000))
                (snd (DualWallet.check_pending_payments
                        WALLET_1_CONFIG day_old_state ledger_down 3600000000)))
      as (_ & _ & _ & Hkeep & _).
    + repeat constructor. intros [].
    + left. reflexivity.
    + exact I.
    + reflexivity.
    + apply Hkeep. discriminate.
Defined.

(** C7, as stated, fails: the status call fails for an entry discovered 25
    hours earlier, and the entry is gone after the check. *)
Lemma failed_status_check_entry_expired :
  In (invoice_hash, stored_invoice) (DualWallet.pending_invoices day_old_state)
  /\ transport_error (ledger_down invoice_hash)
  /\ DualWallet.pending_invoices
       (fst (DualWallet.check_pending_payments
               WALLET_1_CONFIG day_old_state ledger_down after_25_hours))
     = [].
Proof. repeat split. left. reflexivity. Qed.

(** C8.  Within one [check_pending_payments], an entry that is older than
    24 hours and that the status endpoint reports as paid is activated,
    once, with its stored amount, leaves the pending map and enters the
    processed set; it is not expired.  Only entries not reported as paid are
    expired. *)
Theorem paid_sweep_precedes_expiry
    (cfg : wallet_config) (st st' : DualWallet.wallet_state)
    (ledger : string -> http_response payment) (now : Z)
    (h : string) (inv : invoice) (tr : list event) :
  NoDup (PyDict.keys (DualWallet.pending_invoices st)) ->
  In (h, inv) (DualWallet.pending_invoices st) ->
  hours_24 < now - inv_created_time inv ->
  reported_paid ledger h = true ->
  DualWallet.check_pending_payments cfg st ledger now = (st', tr) ->
  In (Activate (inv_amount inv) h) tr
  /\ activations h tr = 1%nat
  /\ ~ In (Expired h) tr
  /\ PyDict.mem h (DualWallet.pending_invoices st') = false
  /\ PySet.mem h (DualWallet.processed_payments st') = true
  /\ (forall h', In (Expired h') tr -> reported_paid ledger h' = false).
Proof.
  intros Hnd Hin Hold Hp Hrun.
  rewrite check_pending_payments_eq in Hrun by assumption.
  cbv zeta in Hrun. injection Hrun as <- <-. simpl.
  destruct (fate_paid ledger _ (DualWallet.processed_payments st)
              (now - hours_24) Hnd h inv Hin Hp) as (Hm & Hs & Ha & Hc & He).
  repeat split; try assumption.
  intros h' H'. apply expired_in_trace in H'. destruct H' as (? & _ & Hu & _).
  exact Hu.
Qed.

(** The statement at the invoice of the examples, 25 hours old and paid. *)
Lemma paid_sweep_precedes_expiry_at_day_old_state :
  In (Activate 5 invoice_hash)
     (snd (DualWallet.check_pending_payments
             WALLET_1_CONFIG day_old_state ledger_paid after_25_hours))
  /\ ~ In (Expired invoice_hash)
       (snd (DualWallet.check_pending_payments
               WALLET_1_CONFIG day_old_state ledger_paid after_25_hours)).
Proof.
  destruct (paid_sweep_precedes_expiry
              WALLET_1_CONFIG day_old_state
              (fst (DualWallet.check_pending_payments
                      WALLET_1_CONFIG day_old_state ledger_paid after_25_hours))
              ledger_paid after_25_hours invoice_hash stored_invoice
              (snd (DualWallet.check_pending_payments
                      WALLET_1_CONFIG day_old_state ledger_paid after_25_hours)))
    as (H1 & _ & H3 & _).
  - repeat constructor. intros [].
  - left. reflexivity.
  - reflexivity.
  - reflexivity.
  - reflexivity.
  - split; assumption.
Defined.

Lemma polling_paid_before_expiry
    (st st' : Polling.monitor)
    (ledger : string -> http_response payment) (now : Z)
    (h : string) (inv : invoice) (tr : list event) :
  NoDup (PyDict.keys (Polling.pending_invoices st)) ->
  In (h, inv) (Polling.pending_invoices st) ->
  hours_24 < now - inv_created_time inv ->
  reported_paid ledger h = true ->
  Polling.check_pending_payments st ledger now = (st', tr) ->
  In (Activate (inv_amount inv) h) tr
  /\ activations h tr = 1%nat
  /\ ~ In (Expired h) tr
  /\ PyDict.mem h (Polling.pending_invoices st') = false
  /\ PySet.mem h (Polling.processed_payments st') = true.
Proof.
  intros Hnd Hin Hold Hp Hrun.
  rewrite polling_check_pending_payments_eq in Hrun by assumption.
  cbv zeta in Hrun. injection Hrun as <- <-. simpl.
  destruct (fate_paid ledger _ (Polling.processed_payments st)
              (now - hours_24) Hnd h inv Hin Hp) as (Hm & Hs & Ha & Hc & He).
  repeat split; assumption.
Qed.

(** C9.  Every activation made by [check_pending_payments] carries the
    amount stored in the pending entry of its identifier, so the pour
    duration is computed from that amount; and the check depends on the
    answers of the status endpoint through their paid flag only: two
    ledgers that agree on who is paid give the same state and the same
    activations, whatever amounts their records carry. *)
Theorem pending_confirmation_uses_stored_amount
    (cfg : wallet_config) (st : DualWallet.wallet_state)
    (ledger : string -> http_response payment) (now : Z) :
  (forall a h,
      In (Activate a h)
         (snd (DualWallet.check_pending_payments cfg st ledger now)) ->
      exists inv,
        In (h, inv) (DualWallet.pending_invoices st)
        /\ reported_paid ledger h = true
        /\ a = inv_amount inv
        /\ calculate_pour_duration a cfg
           = calculate_pour_duration (inv_amount inv) cfg)
  /\
  (forall ledger',
      (forall h, reported_paid ledger' h = reported_paid ledger h) ->
      DualWallet.check_pending_payments cfg st ledger' now
      = DualWallet.check_pending_payments cfg st ledger now).
Proof.
  split.
  - intros a h H. apply check_events in H. apply in_map_iff in H.
    destruct H as ([k inv] & E & Hin). injection E as <- <-.
    apply in_paid_items in Hin. exists inv. tauto.
  - intros ledger' Hsame. unfold DualWallet.check_pending_payments.
    destruct (DualWallet.pending_invoices st); [reflexivity |].
    now rewrite (sweep_ext ledger ledger').
Qed.

(** The statement at the invoice of the examples: 5 sats stored, 9 sats in
    the record of the status endpoint. *)
Lemma pending_confirmation_ignores_reported_amount :
  DualWallet.check_pending_payments
    WALLET_1_CONFIG day_old_state ledger_paid_other_amount 3600000000
  = DualWallet.check_pending_payments
      WALLET_1_CONFIG day_old_state ledger_paid 3600000000
  /\ exists inv,
       In (invoice_hash, inv) (DualWallet.pending_invoices day_old_state)
       /\ 5 = inv_amount inv.
Proof.
  destruct (pending_confirmation_uses_stored_amount
              WALLET_1_CONFIG day_old_state ledger_paid 3600000000)
    as [Hamount Hsame].
  split.
  - apply Hsame. intros h. reflexivity.
  - destruct (Hamount 5 invoice_hash) as (inv & Hin & _ & Ha & _).
    + left. reflexivity.
    + exists inv. split; assumption.
Defined.

Lemma polling_check_ignores_reported_amount
    (st : Polling.monitor) (ledger ledger' : string -> http_response payment)
    (now : Z) :
  (forall h, reported_paid ledger' h = reported_paid ledger h) ->
  Polling.check_pending_payments st ledger' now
  = Polling.check_pending_payments st ledger now.
Proof.
  intros Hsame. unfold Polling.check_pending_payments.
  destruct (Polling.pending_invoices st); [reflexivity |].
  now rewrite (sweep_ext ledger ledger').
Qed.

(** ** Actuator controller *)

Section ActuatorFacts.
Import Actuator.

Lemma GPIO_output_same (g : gpio) (pin : Z) (v : level) :
  GPIO_output g pin v pin = v.
Proof. unfold GPIO_output. now rewrite Z.eqb_refl. Qed.

(** In the dual wallet monitor the relay of the wallet is low after every
    call with a configuration, however the hold ends, and whether the
    call returns or lets an exception through. *)
Lemma dual_wallet_activate_solenoid_ends_low
    (amount : Z) (payment_hash : string) (cfg : wallet_config)
    (sleep : Q -> outcome) (g : gpio) :
  fst (DualWallet.activate_solenoid amount payment_hash (Some cfg) sleep g)
      (relay_pin cfg) = LOW.
Proof.
  unfold DualWallet.activate_solenoid.
  destruct (calculate_pour_duration amount cfg); simpl;
    apply GPIO_output_same.
Qed.

(** In the single wallet monitor the relay is low after a call that
    returns. *)
Lemma polling_activate_solenoid_returns_low
    (amount : Z) (payment_hash : string) (sleep : Q -> outcome) (g : gpio) :
  snd (Polling.activate_solenoid amount payment_hash sleep g) = Returns ->
  fst (Polling.activate_solenoid amount payment_hash sleep g)
      Polling.RELAY_PIN = LOW.
Proof.
  unfold Polling.activate_solenoid.
  destruct (sleep Polling.SOLENOID_DURATION) as [| e]; simpl.
  - intros _. apply GPIO_output_same.
  - destruct (is_Exception e); simpl; [| discriminate].
    intros _. apply GPIO_output_same.
Qed.
End ActuatorFacts.

(** C2 at the failing input.  In the single wallet monitor, when the hold is
    interrupted by [KeyboardInterrupt], [activate_solenoid] lets the
    exception through with the relay still high; the dual wallet monitor, on
    the same hold, lets it through with the relay low. *)
Theorem polling_activate_solenoid_interrupted_stays_high
    (amount : Z) (payment_hash : string) (g : Actuator.gpio) :
  snd (Polling.activate_solenoid amount payment_hash interrupted_sleep g)
  = Actuator.Raises Actuator.KeyboardInterrupt
  /\ fst (Polling.activate_solenoid amount payment_hash interrupted_sleep g)
         Polling.RELAY_PIN = Actuator.HIGH
  /\ snd (DualWallet.activate_solenoid amount payment_hash
            (Some WALLET_1_CONFIG) interrupted_sleep g)
     = Actuator.Raises Actuator.KeyboardInterrupt
  /\ fst (DualWallet.activate_solenoid amount payment_hash
            (Some WALLET_1_CONFIG) interrupted_sleep g)
         (relay_pin WALLET_1_CONFIG) = Actuator.LOW.
Proof.
  repeat split.
Qed.

(** ** Truncation of the processed set *)

Section CleanupFacts.
Variable set_order : list string -> list string.
Hypothesis set_order_enumerates : enumeration set_order.

Lemma last_n_length {A : Type} (n : nat) (l : list A) :
  (n <= List.length l)%nat -> List.length (PySet.last_n n l) = n.
Proof. intros H. unfold PySet.last_n. rewrite length_skipn. lia. Qed.

Lemma last_n_incl {A : Type} (n : nat) (l : list A) (x : A) :
  In x (PySet.last_n n l) -> In x l.
Proof.
  unfold PySet.last_n. intros H.
  rewrite <- (firstn_skipn (List.length l - n) l). apply in_or_app. now right.
Qed.

(** Whatever the enumeration, a processed set of more than 1000
    identifiers is cut down to exactly 500 of its own identifiers, and a
    smaller one is left alone. *)
Lemma cleanup_wallet_state_size (st : DualWallet.wallet_state) :
  (1000 < List.length (DualWallet.processed_payments st))%nat ->
  let st' := DualWallet.cleanup_wallet_state set_order st in
  List.length (DualWallet.processed_payments st') = 500%nat
  /\ (forall x, In x (DualWallet.processed_payments st') ->
                In x (DualWallet.processed_payments st))
  /\ DualWallet.pending_invoices st' = DualWallet.pending_invoices st.
Proof.
  intros Hlen. unfold DualWallet.cleanup_wallet_state.
  destruct (Z.ltb_spec 1000
              (Z.of_nat (List.length (DualWallet.processed_payments st))));
    [| lia].
  simpl.
  pose proof (set_order_enumerates (DualWallet.processed_payments st)) as P.
  repeat split.
  - apply last_n_length. rewrite (Permutation_length P). lia.
  - intros x Hx. apply last_n_incl in Hx. now apply (Permutation_in _ P).
Qed.

Lemma cleanup_wallet_state_small (st : DualWallet.wallet_state) :
  (List.length (DualWallet.processed_payments st) <= 1000)%nat ->
  DualWallet.cleanup_wallet_state set_order st = st.
Proof.
  intros Hlen. unfold DualWallet.cleanup_wallet_state.
  destruct (Z.ltb_spec 1000
              (Z.of_nat (List.length (DualWallet.processed_payments st))));
    [lia | reflexivity].
Qed.
End CleanupFacts.

Lemma newest_first_enumerates : enumeration newest_first.
Proof. intros s. unfold newest_first. symmetry. apply Permutation_rev. Qed.

(** Under that enumeration the cleanup always keeps the 500 identifiers
    added first; under an enumeration in insertion order it would keep the
    500 added last. *)
Lemma cleanup_newest_first_keeps_oldest (st : DualWallet.wallet_state) :
  (1000 < List.length (DualWallet.processed_payments st))%nat ->
  DualWallet.processed_payments
    (DualWallet.cleanup_wallet_state newest_first st)
  = rev (firstn 500 (DualWallet.processed_payments st)).
Proof.
  intros Hlen. unfold DualWallet.cleanup_wallet_state.
  destruct (Z.ltb_spec 1000
              (Z.of_nat (List.length (DualWallet.processed_payments st))));
    [| lia].
  unfold DualWallet.with_processed, PySet.last_n, newest_first.
  cbn [DualWallet.processed_payments].
  rewrite length_rev, skipn_rev. f_equal. f_equal.
  generalize dependent (List.length (DualWallet.processed_payments st)).
  intros n Hn _. apply Nat.add_sub_eq_l. apply Nat.sub_add.
  apply Nat.lt_le_incl, Nat.lt_trans with 1000%nat; [| exact Hn].
  repeat constructor.
Qed.

Lemma cleanup_insertion_order_keeps_newest (st : DualWallet.wallet_state) :
  (1000 < List.length (DualWallet.processed_payments st))%nat ->
  DualWallet.processed_payments
    (DualWallet.cleanup_wallet_state (fun s => s) st)
  = PySet.last_n 500 (DualWallet.processed_payments st).
Proof.
  intros Hlen. unfold DualWallet.cleanup_wallet_state.
  destruct (Z.ltb_spec 1000
              (Z.of_nat (List.length (DualWallet.processed_payments st))));
    [reflexivity | lia].
Qed.

(** C5 at the failing input.  1001 identifiers are added, [hash0] first and
    [hash1000] last, and the set is enumerated newest first: the cleanup
    keeps 500 identifiers, and they are [hash0] ... [hash499], the oldest
    ones; none of the 500 added last is kept. *)
Theorem cleanup_keeps_oldest_under_newest_first :
  let st' := DualWallet.cleanup_wallet_state newest_first thousand_and_one in
  List.length (DualWallet.processed_payments st') = 500%nat
  /\ forallb (fun x => PySet.mem x (DualWallet.processed_payments st'))
             (map numbered (seq 0 500)) = true
  /\ forallb (fun x => negb (PySet.mem x (DualWallet.processed_payments st')))
             (PySet.last_n 500 (DualWallet.processed_payments thousand_and_one))
     = true.
Proof. vm_compute. repeat split. Qed.

(** ** Scanning twice *)

Section ScanTwice.
Variable parse_payment_time : string -> option Z.
Variable cfg : wallet_config.


Ltac scan_cases p st :=
  unfold DualWallet.scan_payment; fold (below_minimum cfg p);
  destruct (Z.leb_spec (get_amount p) 0) as [Hamt | Hamt];
  [| destruct (PySet.mem (get_payment_hash p)
                         (DualWallet.processed_payments st)) eqn:Hproc;
     [| destruct (below_minimum cfg p) eqn:Hmin;
        [| destruct (DualWallet.payment_timestamp parse_payment_time p)
             as [t |] eqn:Hts;
           [ destruct (Z.leb_spec (DualWallet.last_check_time st) t)
               as [Hfresh | Hold];
             [ destruct (get_paid p) eqn:Hpaid;
               [| destruct (PyDict.mem (get_payment_hash p)
                                       (DualWallet.pending_invoices st))
                    eqn:Hpend ]
             |]
           |]]]].

Lemma grows_refl (st : DualWallet.wallet_state) : grows st st.
Proof. split; auto. Qed.

Lemma grows_trans (st1 st2 st3 : DualWallet.wallet_state) :
  grows st1 st2 -> grows st2 st3 -> grows st1 st3.
Proof. intros [A B] [C D]. split; auto. Qed.

Lemma scan_payment_grows (st st' : DualWallet.wallet_state) (p : payment)
    (tr : list event) :
  DualWallet.scan_payment parse_payment_time cfg st p = (st', tr) ->
  grows st st'
  /\ DualWallet.last_check_time st' = DualWallet.last_check_time st.
Proof.
  scan_cases p st; intros [= <- <-]; (split; [| reflexivity]);
    try apply grows_refl; split; simpl; auto; intros h Hh.
  - rewrite mem_add, Hh. apply orb_true_r.
  - rewrite mem_add, Hh. apply orb_true_r.
  - rewrite mem_set, Hh. apply orb_true_r.
Qed.

Lemma scan_payment_settles (st st' : DualWallet.wallet_state) (p : payment)
    (tr : list event) :
  DualWallet.scan_payment parse_payment_time cfg st p = (st', tr) ->
  settled parse_payment_time cfg (DualWallet.last_check_time st) st' p.
Proof.
  unfold settled.
  scan_cases p st; intros [= <- <-]; simpl; try rewrite Hts; auto.
  - right. left. rewrite mem_add, String.eqb_refl. reflexivity.
  - right. left. rewrite mem_add, String.eqb_refl. reflexivity.
  - right. right. split; [reflexivity |]. right. split; [reflexivity |].
    exact Hpend.
  - right. right. split; [reflexivity |]. right. split; [reflexivity |].
    rewrite mem_set, String.eqb_refl. reflexivity.
Qed.

Lemma settled_grows (W : Z) (st st' : DualWallet.wallet_state) (p : payment) :
  settled parse_payment_time cfg W st p -> grows st st' ->
  settled parse_payment_time cfg W st' p.
Proof.
  unfold settled. intros [H | [H | [Hmin H]]] [Hp Hd]; auto.
  right. right. split; [exact Hmin |].
  destruct (DualWallet.payment_timestamp parse_payment_time p); [| exact I].
  destruct H as [H | [H1 H2]]; auto.
Qed.

(** A settled record leaves the state alone and activates nothing. *)
Lemma settled_noop (W : Z) (st : DualWallet.wallet_state) (p : payment) :
  settled parse_payment_time cfg W st p ->
  W <= DualWallet.last_check_time st ->
  DualWallet.scan_payment parse_payment_time cfg st p = (st, []).
Proof.
  unfold settled. intros H HW.
  scan_cases p st; try reflexivity; exfalso;
    destruct H as [H | [H | [Hm H]]]; try lia; try congruence;
    rewrite ?Hts in H; try destruct H as [H | [H1 H2]]; try lia; congruence.
Qed.

Lemma scan_loop_grows (payments : list payment)
    (st st' : DualWallet.wallet_state) (tr : list event) :
  DualWallet.scan_loop parse_payment_time cfg payments st = (st', tr) ->
  grows st st'
  /\ DualWallet.last_check_time st' = DualWallet.last_check_time st.
Proof.
  revert st st' tr.
  induction payments as [| p rest IH]; intros st st' tr; simpl.
  - intros [= <- <-]. split; [apply grows_refl | reflexivity].
  - destruct (DualWallet.scan_payment parse_payment_time cfg st p)
      as [st1 tr1] eqn:E1.
    destruct (DualWallet.scan_loop parse_payment_time cfg rest st1)
      as [st2 tr2] eqn:E2.
    intros [= <- <-].
    apply scan_payment_grows in E1. apply IH in E2.
    destruct E1 as [G1 T1], E2 as [G2 T2].
    split; [eapply grows_trans; eassumption | congruence].
Qed.

Lemma scan_loop_settles (payments : list payment)
    (st st' : DualWallet.wallet_state) (tr : list event) :
  DualWallet.scan_loop parse_payment_time cfg payments st = (st', tr) ->
  forall p, In p payments ->
    settled parse_payment_time cfg (DualWallet.last_check_time st) st' p.
Proof.
  revert st st' tr.
  induction payments as [| p rest IH]; intros st st' tr; simpl.
  - intros _ p [].
  - destruct (DualWallet.scan_payment parse_payment_time cfg st p)
      as [st1 tr1] eqn:E1.
    destruct (DualWallet.scan_loop parse_payment_time cfg rest st1)
      as [st2 tr2] eqn:E2.
    intros [= <- <-] q [<- | Hq].
    + apply settled_grows with st1; [now apply scan_payment_settles with tr1 |].
      now apply scan_loop_grows in E2.
    + apply scan_payment_grows in E1. destruct E1 as [_ T1]. rewrite <- T1.
      now apply IH with tr2.
Qed.

Lemma scan_loop_noop (W : Z) (payments : list payment)
    (st : DualWallet.wallet_state) :
  (forall p, In p payments -> settled parse_payment_time cfg W st p) ->
  W <= DualWallet.last_check_time st ->
  DualWallet.scan_loop parse_payment_time cfg payments st = (st, []).
Proof.
  intros Hall HW. induction payments as [| p rest IH]; simpl; [reflexivity |].
  rewrite (settled_noop W st p) by (try apply Hall; simpl; auto).
  rewrite IH by (intros q Hq; apply Hall; simpl; auto). reflexivity.
Qed.
End ScanTwice.

(** C6 (as amended).  Two scans in a row over the same list, the first one
    made no earlier than the watermark: the second activates nothing and
    leaves the pending map and the processed set as the first one left
    them. *)
Theorem scan_twice_idempotent
    (parse_payment_time : string -> option Z) (cfg : wallet_config)
    (st st1 st2 : DualWallet.wallet_state) (r : http_response (list payment))
    (T1 T2 : Z) (tr1 tr2 : list event) :
  DualWallet.last_check_time st <= T1 ->
  DualWallet.scan_for_recent_payments parse_payment_time cfg st r T1
  = (st1, tr1) ->
  DualWallet.scan_for_recent_payments parse_payment_time cfg st1 r T2
  = (st2, tr2) ->
  tr2 = []
  /\ DualWallet.pending_invoices st2 = DualWallet.pending_invoices st1
  /\ DualWallet.processed_payments st2 = DualWallet.processed_payments st1.
Proof.
  intros Hclock. unfold DualWallet.scan_for_recent_payments.
  destruct (get_recent_payments r) as [[| p rest] |].
  - intros [= <- <-] [= <- <-]. auto.
  - destruct (DualWallet.scan_loop parse_payment_time cfg (p :: rest) st)
      as [st' tr] eqn:E1.
    intros [= <- <-].
    rewrite (scan_loop_noop parse_payment_time cfg
               (DualWallet.last_check_time st)).
    + intros [= <- <-]. auto.
    + intros q Hq.
      apply settled_grows with st';
        [now apply scan_loop_settles with (p :: rest) tr | split; simpl; auto].
    + exact Hclock.
  - intros [= <- <-] [= <- <-]. auto.
Qed.

(** The statement at the first two scans of a monitor that sees the invoice
    of the examples, unpaid. *)
Lemma scan_twice_idempotent_at_unpaid_invoice :
  snd (DualWallet.scan_for_recent_payments IsoTime.parse WALLET_1_CONFIG
         (fst (DualWallet.scan_for_recent_payments IsoTime.parse WALLET_1_CONFIG
                 (DualWallet.setup_wallet_state at_startup)
                 (Response 200 [listed false]) at_first_scan))
         (Response 200 [listed false]) at_second_scan)
  = []
  /\ PyDict.keys
       (DualWallet.pending_invoices
          (fst (DualWallet.scan_for_recent_payments IsoTime.parse WALLET_1_CONFIG
                  (DualWallet.setup_wallet_state at_startup)
                  (Response 200 [listed false]) at_first_scan)))
     = [invoice_hash].
Proof.
  split; [| reflexivity].
  eapply (scan_twice_idempotent IsoTime.parse WALLET_1_CONFIG
            (DualWallet.setup_wallet_state at_startup) _ _
            (Response 200 [listed false]) at_first_scan at_second_scan).
  - discriminate.
  - apply surjective_pairing.
  - apply surjective_pairing.
Defined.

(** C6, as stated, fails when the clock has been set back.  A monitor set up
    at 00:10 has its watermark at 00:08; the ledger lists a paid invoice
    stamped 00:05:10.  A first scan, made when the clock reads 00:00, finds
    the invoice too old, activates nothing, and moves the watermark back to
    00:00; the second scan of the same list then activates the solenoid. *)
Lemma scan_twice_activates_after_clock_set_back :
  let r := Response 200 [listed true] in
  let first :=
    DualWallet.scan_for_recent_payments IsoTime.parse WALLET_1_CONFIG
      started_later r at_startup in
  let second :=
    DualWallet.scan_for_recent_payments IsoTime.parse WALLET_1_CONFIG
      (fst first) r at_first_scan in
  at_startup < DualWallet.last_check_time started_later
  /\ snd first = []
  /\ snd second = [Activate 5 invoice_hash].
Proof.
  vm_compute. repeat split.
Qed.

(** The condition on the clock holds by itself along a run: as long as the
    clock never runs backwards, the watermark is never ahead of the last
    reading. *)
Lemma watermark_behind_clock
    (parse_payment_time : string -> option Z) (cfg : wallet_config)
    (ticks : list DualWallet.tick) (st : DualWallet.wallet_state) (t0 : Z) :
  DualWallet.last_check_time st <= t0 ->
  clock_advances t0 ticks ->
  DualWallet.last_check_time
    (fst (DualWallet.run_ticks parse_payment_time cfg st ticks))
  <= last_reading t0 ticks.
Proof.
  revert st t0. induction ticks as [| t rest IH]; intros st t0 Hw Hadv; simpl;
    [exact Hw |].
  destruct Hadv as [Hstep Hrest].
  assert (H1 : DualWallet.last_check_time
                 (fst (DualWallet.do_tick parse_payment_time cfg st t))
               <= tick_clock t).
  { assert (Hle : DualWallet.last_check_time st <= tick_clock t)
      by (apply Z.le_trans with t0; assumption).
    destruct t as [r current_time | ledger now];
      cbn [tick_clock DualWallet.do_tick] in *.
    - unfold DualWallet.scan_for_recent_payments.
      destruct (get_recent_payments r) as [[| p ps] |];
        [exact Hle | | exact Hle].
      destruct (DualWallet.scan_loop parse_payment_time cfg (p :: ps) st).
      apply Z.le_refl.
    - unfold DualWallet.check_pending_payments.
      destruct (DualWallet.pending_invoices st); [exact Hle |].
      destruct (sweep _ _ _) as [[? ?] ?]. exact Hle. }
  destruct (DualWallet.do_tick parse_payment_time cfg st t) as [st1 tr1].
  specialize (IH st1 (tick_clock t) H1 Hrest).
  destruct (DualWallet.run_ticks parse_payment_time cfg st1 rest) as [st2 tr2].
  exact IH.
Qed.

(** X20.  From startup on, as long as the clock readings never go
    backwards, the watermark of a wallet is never ahead of the last clock
    reading: it is the startup time less the lookback, or the reading of an
    earlier scan. *)
Lemma watermark_behind_clock_from_startup
    (parse_payment_time : string -> option Z) (cfg : wallet_config)
    (ticks : list DualWallet.tick) (startup : Z) :
  clock_advances startup ticks ->
  DualWallet.last_check_time
    (fst (DualWallet.run_ticks parse_payment_time cfg
            (DualWallet.setup_wallet_state startup) ticks))
  <= last_reading startup ticks.
Proof.
  apply watermark_behind_clock. unfold DualWallet.setup_wallet_state,
    DualWallet.LOOKBACK. simpl. lia.
Qed.

(** The single wallet monitor: the same, with no condition on the clock. *)
Section PollingScanTwice.
Variable ledger : string -> http_response payment.
Variable now : Z.

Ltac polling_cases p st :=
  unfold Polling.scan_payment; fold (known st (get_payment_hash p));
  destruct (Z.leb_spec (get_amount p) 0) as [Hamt | Hamt];
  [| destruct (known st (get_payment_hash p)) eqn:Hknown;
     [| destruct ((0 <? Polling.MIN_PAYMENT_AMOUNT)
                  && (PyNum.msat_to_sats (get_amount p)
                      <? Polling.MIN_PAYMENT_AMOUNT)) eqn:Hmin;
        [| destruct (fst (check_specific_payment_status
                            (ledger (get_payment_hash p)))) eqn:Hpaid ]]].

Lemma polling_scan_payment_known (st : Polling.monitor) (p : payment)
    (h : string) :
  known st h = true -> known (Polling.scan_payment ledger now st p) h = true.
Proof.
  intros H. polling_cases p st; try exact H; unfold known in *; simpl;
    rewrite ?mem_add, ?mem_set;
    apply orb_true_iff in H; destruct H as [-> | ->];
    now rewrite ?orb_true_r.
Qed.

Lemma polling_scan_payment_settles (st : Polling.monitor) (p : payment) :
  get_amount p <= 0
  \/ known (Polling.scan_payment ledger now st p) (get_payment_hash p) = true.
Proof.
  polling_cases p st; auto; right; unfold known; simpl;
    rewrite ?mem_add, ?mem_set, String.eqb_refl; now rewrite ?orb_true_r.
Qed.

Lemma polling_scan_payment_noop (st : Polling.monitor) (p : payment) :
  get_amount p <= 0 \/ known st (get_payment_hash p) = true ->
  Polling.scan_payment ledger now st p = st.
Proof.
  intros H. polling_cases p st; try reflexivity;
    destruct H as [H | H]; try lia; congruence.
Qed.

Lemma polling_scan_known (payments : list payment) (st : Polling.monitor)
    (h : string) :
  known st h = true ->
  known (fold_left (Polling.scan_payment ledger now) payments st) h = true.
Proof.
  revert st.
  induction payments as [| p rest IH]; intros st H; simpl; [exact H |].
  apply IH. now apply polling_scan_payment_known.
Qed.

Lemma polling_scan_settles (payments : list payment) (st : Polling.monitor)
    (p : payment) :
  In p payments ->
  get_amount p <= 0
  \/ known (fold_left (Polling.scan_payment ledger now) payments st)
           (get_payment_hash p) = true.
Proof.
  revert st.
  induction payments as [| q rest IH]; intros st; simpl; [intros [] |].
  intros [-> | Hin]; [| now apply IH].
  destruct (polling_scan_payment_settles st p) as [H | H]; [now left | right].
  now apply polling_scan_known.
Qed.
End PollingScanTwice.

Lemma polling_scan_noop (ledger : string -> http_response payment) (now : Z)
    (payments : list payment) (st : Polling.monitor) :
  (forall p, In p payments ->
             get_amount p <= 0 \/ known st (get_payment_hash p) = true) ->
  fold_left (Polling.scan_payment ledger now) payments st = st.
Proof.
  induction payments as [| p rest IH]; intros Hall; simpl; [reflexivity |].
  rewrite polling_scan_payment_noop by (apply Hall; simpl; auto).
  apply IH. intros q Hq. apply Hall. simpl. auto.
Qed.

(** X19.  In the single wallet monitor a scan repeated over the same list
    changes nothing, whatever the status endpoint answers the second time
    and whatever the clock says. *)
Lemma polling_rescan_changes_nothing
    (st : Polling.monitor) (r : http_response (list payment))
    (ledger1 ledger2 : string -> http_response payment) (now1 now2 : Z) :
  Polling.scan_for_new_invoices
    (Polling.scan_for_new_invoices st r ledger1 now1) r ledger2 now2
  = Polling.scan_for_new_invoices st r ledger1 now1.
Proof.
  unfold Polling.scan_for_new_invoices.
  destruct (get_recent_payments r) as [payments |]; [| reflexivity].
  apply polling_scan_noop. intros p Hp. now apply polling_scan_settles.
Qed.

(** ** Records without an identifier *)

Lemma identifier_less_payment_hash (p : payment) :
  pay_payment_hash p = None -> pay_checking_id p = None ->
  get_payment_hash p = EmptyString.
Proof. unfold get_payment_hash. now intros -> ->. Qed.

(** Once the empty identifier is in the processed set, the dual wallet
    monitor skips every record without identifier. *)
Lemma dual_wallet_identifier_less_skipped_when_processed
    (parse_payment_time : string -> option Z) (cfg : wallet_config)
    (st : DualWallet.wallet_state) (p : payment) :
  pay_payment_hash p = None -> pay_checking_id p = None ->
  PySet.mem EmptyString (DualWallet.processed_payments st) = true ->
  DualWallet.scan_payment parse_payment_time cfg st p = (st, []).
Proof.
  intros H1 H2 Hp. unfold DualWallet.scan_payment.
  rewrite (identifier_less_payment_hash p H1 H2), Hp.
  now destruct (get_amount p <=? 0).
Qed.

(** Once the empty identifier is in the processed set or in the pending
    map, the single wallet monitor skips every record without identifier. *)
Lemma polling_identifier_less_skipped
    (ledger : string -> http_response payment) (now : Z)
    (st : Polling.monitor) (p : payment) :
  pay_payment_hash p = None -> pay_checking_id p = None ->
  known st EmptyString = true ->
  Polling.scan_payment ledger now st p = st.
Proof.
  intros H1 H2 Hk. apply polling_scan_payment_noop. right.
  now rewrite (identifier_less_payment_hash p H1 H2).
Qed.

(** C10 at the failing input.  The dual wallet monitor gets two records
    without identifier in one list, the first unpaid, the second paid.  Both
    get the empty identifier; the first one enters the pending map under it;
    the second one is not skipped: the solenoid is activated for it. *)
Theorem dual_wallet_identifier_less_not_skipped_when_pending :
  let st0 := DualWallet.setup_wallet_state at_startup in
  let st1 :=
    fst (DualWallet.scan_payment IsoTime.parse WALLET_1_CONFIG st0
           (anonymous false)) in
  get_payment_hash (anonymous false) = EmptyString
  /\ get_payment_hash (anonymous true) = EmptyString
  /\ PyDict.mem EmptyString (DualWallet.pending_invoices st1) = true
  /\ DualWallet.scan_payment IsoTime.parse WALLET_1_CONFIG st1 (anonymous true)
     = (DualWallet.with_processed st1 [EmptyString], [Activate 7 EmptyString])
  /\ snd (DualWallet.scan_for_recent_payments IsoTime.parse WALLET_1_CONFIG st0
            (Response 200 [anonymous false; anonymous true]) at_first_scan)
     = [Activate 7 EmptyString].
Proof. vm_compute. repeat split. Qed.

(** ** At most one activation per identifier *)

(** C1 at the failing input.  The dual wallet monitor starts, scans a list
    that shows the invoice unpaid, scans a list that shows it paid, then
    checks its pending invoices; the ledger stamps the invoice five minutes
    ahead of the monitor's clock.  The solenoid is activated twice for the
    one identifier: by the second scan and by the check. *)
Theorem dual_wallet_activates_twice :
  activations invoice_hash
    (snd (DualWallet.run_ticks IsoTime.parse WALLET_1_CONFIG
            (DualWallet.setup_wallet_state at_startup)
            [DualWallet.ScanTick (Response 200 [listed false]) at_first_scan;
             DualWallet.ScanTick (Response 200 [listed true]) at_second_scan;
             DualWallet.CheckTick ledger_paid at_second_scan]))
  = 2%nat
  /\ snd (DualWallet.run_ticks IsoTime.parse WALLET_1_CONFIG
            (DualWallet.setup_wallet_state at_startup)
            [DualWallet.ScanTick (Response 200 [listed false]) at_first_scan;
             DualWallet.ScanTick (Response 200 [listed true]) at_second_scan;
             DualWallet.CheckTick ledger_paid at_second_scan])
     = [Activate 5 invoice_hash; Activate 5 invoice_hash].
Proof. vm_compute. split; reflexivity. Qed.

(** The single wallet monitor does keep the promise: whatever the ledger
    answers, over any sequence of scans and checks, no identifier is
    activated twice. *)

Section PollingOnce.

Lemma polling_invariant_init : polling_invariant Polling.init [].
Proof.
  unfold polling_invariant. simpl. repeat split; auto; constructor.
Qed.

Lemma polling_scan_payment_invariant
    (ledger : string -> http_response payment) (now : Z)
    (st : Polling.monitor) (p : payment) (tr : list event) :
  polling_invariant st tr ->
  polling_invariant (Polling.scan_payment ledger now st p) tr.
Proof.
  intros (Hnd & Hdis & Hact & Hone).
  unfold Polling.scan_payment. fold (known st (get_payment_hash p)).
  destruct (get_amount p <=? 0); [unfold polling_invariant; auto |].
  destruct (known st (get_payment_hash p)) eqn:Hk;
    [unfold polling_invariant; auto |].
  unfold known in Hk. apply orb_false_iff in Hk. destruct Hk as [Hk1 Hk2].
  assert (Hproc : polling_invariant
            {| Polling.pending_invoices := Polling.pending_invoices st;
               Polling.processed_payments :=
                 PySet.add (get_payment_hash p)
                           (Polling.processed_payments st) |}
            tr).
  { split; [exact Hnd | split; [| split; [| exact Hone]]]; simpl.
    - intros h Hh. rewrite mem_add.
      destruct (String.eqb_spec h (get_payment_hash p)) as [-> | _];
        [congruence | now apply Hdis].
    - intros h Hh. rewrite mem_add in Hh. apply orb_false_iff in Hh.
      now apply Hact. }
  destruct ((0 <? Polling.MIN_PAYMENT_AMOUNT) && _); [exact Hproc |].
  destruct (fst (check_specific_payment_status _)); [exact Hproc |].
  split; [| split; [| split; [exact Hact | exact Hone]]]; simpl.
  - rewrite keys_set_new by assumption.
    apply NoDup_app; [exact Hnd | repeat constructor; intros [] |].
    intros h Hh [<- | []]. apply mem_keys in Hh. congruence.
  - intros h Hh. rewrite mem_set in Hh.
    destruct (String.eqb h (get_payment_hash p)) eqn:E.
    + apply String.eqb_eq in E. subst h. exact Hk2.
    + now apply Hdis.
Qed.

Lemma polling_scan_invariant
    (ledger : string -> http_response payment) (now : Z)
    (r : http_response (list payment))
    (st : Polling.monitor) (tr : list event) :
  polling_invariant st tr ->
  polling_invariant (Polling.scan_for_new_invoices st r ledger now) tr.
Proof.
  unfold Polling.scan_for_new_invoices.
  destruct (get_recent_payments r) as [payments |]; [| auto].
  revert st.
  induction payments as [| p rest IH]; intros st H; simpl; [exact H |].
  apply IH. now apply polling_scan_payment_invariant.
Qed.

Lemma polling_check_invariant
    (ledger : string -> http_response payment) (now : Z)
    (st st' : Polling.monitor) (tr tr' : list event) :
  polling_invariant st tr ->
  Polling.check_pending_payments st ledger now = (st', tr') ->
  polling_invariant st' (tr ++ tr').
Proof.
  intros (Hnd & Hdis & Hact & Hone) Hrun.
  rewrite polling_check_pending_payments_eq in Hrun by assumption.
  cbv zeta in Hrun. injection Hrun as <- <-.
  assert (Hpaid : forall h,
             In h (PyDict.keys
                     (paid_items ledger (Polling.pending_invoices st))) ->
             activations h tr = 0%nat).
  { intros h Hh. apply paid_items_keys in Hh. destruct Hh as [_ Hh].
    apply Hact, Hdis. now apply mem_keys. }
  assert (Hnew : forall h,
             ~ In h (PyDict.keys
                       (paid_items ledger (Polling.pending_invoices st))) ->
             activations h
               (check_trace ledger (now - hours_24)
                            (Polling.pending_invoices st))
             = 0%nat).
  { intros h Hh. rewrite activations_in_trace. now apply activations_none. }
  split; [| split; [| split]]; simpl.
  - unfold kept_pending, unpaid_items.
    now apply keys_filter_NoDup, keys_filter_NoDup.
  - intros h Hh. apply mem_keys, in_map_iff in Hh.
    destruct Hh as ([k inv] & E & Hin). simpl in E; subst k.
    apply in_kept_pending in Hin. destruct Hin as (Hin & Hu & _).
    rewrite mem_add_all_keys. apply orb_false_iff. split.
    + apply not_true_is_false. intros H. apply existsb_eqb_In in H.
      apply paid_items_keys in H. destruct H. congruence.
    + apply Hdis, mem_keys. now apply in_keys_of with inv.
  - intros h Hh. rewrite mem_add_all_keys in Hh. apply orb_false_iff in Hh.
    destruct Hh as [Hh1 Hh2].
    rewrite activations_app, (Hact h Hh2), Hnew; [lia |].
    intros H. apply existsb_eqb_In in H. congruence.
  - intros h. rewrite activations_app.
    destruct (in_dec string_dec h
                (PyDict.keys (paid_items ledger (Polling.pending_invoices st))))
      as [Hin | Hn].
    + rewrite (Hpaid h Hin), activations_in_trace.
      apply activations_at_most_once. now apply keys_filter_NoDup.
    + rewrite (Hnew h Hn). specialize (Hone h). lia.
Qed.

Lemma polling_run_invariant (ticks : list Polling.tick)
    (st st' : Polling.monitor) (tr tr' : list event) :
  polling_invariant st tr ->
  Polling.run_ticks st ticks = (st', tr') ->
  polling_invariant st' (tr ++ tr').
Proof.
  revert st tr st' tr'. induction ticks as [| t rest IH];
    intros st tr st' tr' Hinv; simpl.
  - intros [= <- <-]. now rewrite app_nil_r.
  - destruct (Polling.do_tick st t) as [st1 tr1] eqn:E1.
    destruct (Polling.run_ticks st1 rest) as [st2 tr2] eqn:E2.
    intros [= <- <-]. rewrite app_assoc. apply (IH st1); [| exact E2].
    destruct t as [r ledger now | ledger now]; simpl in E1.
    + injection E1 as <- <-. rewrite app_nil_r.
      now apply polling_scan_invariant.
    + now apply polling_check_invariant with ledger now st.
Qed.

(** X18.  Over any sequence of scans and checks from startup, with any
    answers of the ledger, the single wallet monitor activates the solenoid
    at most once for each identifier. *)
Lemma polling_activates_at_most_once (ticks : list Polling.tick) (h : string) :
  (activations h (snd (Polling.run_ticks Polling.init ticks)) <= 1)%nat.
Proof.
  destruct (Polling.run_ticks Polling.init ticks) as [st' tr'] eqn:E.
  apply (polling_run_invariant ticks Polling.init st' [] tr'
           polling_invariant_init) in E.
  destruct E as (_ & _ & _ & Hone). apply Hone.
Qed.
End PollingOnce.

(** * Further properties of the code *)

(** ** More on the duration calculator *)

Section DurationOrder.
Import PyNum.
Local Open Scope Q_scope.

Ltac order_absurd :=
  exfalso;
  match goal with
  | Ep : ?P == ?h, Lq : ?R < ?h, Hfrac : ?P <= ?R |- _ =>
      rewrite Ep in Hfrac; exact (Qlt_irrefl _ (Qlt_le_trans _ _ _ Lq Hfrac))
  | Eq : ?R == ?h, Gp : ?h < ?P, Hfrac : ?P <= ?R |- _ =>
      rewrite Eq in Hfrac; exact (Qlt_irrefl _ (Qlt_le_trans _ _ _ Gp Hfrac))
  | Lq : ?R < ?h, Gp : ?h < ?P, Hfrac : ?P <= ?R |- _ =>
      exact (Qlt_irrefl _ (Qlt_le_trans _ _ _ (Qlt_trans _ _ _ Lq Gp) Hfrac))
  end.

Lemma round_half_even_mono (p q : Q) :
  p <= q -> (round_half_even p <= round_half_even q)%Z.
Proof.
  intros Hpq.
  assert (Hf : (Qfloor p <= Qfloor q)%Z) by now apply Qfloor_resp_le.
  destruct (Z.eq_dec (Qfloor p) (Qfloor q)) as [E | N].
  - unfold round_half_even; cbv zeta. rewrite E.
    assert (Hfrac : p - inject_Z (Qfloor q) <= q - inject_Z (Qfloor q)).
    { apply Qplus_le_l. exact Hpq. }
    destruct (Qcompare_spec (p - inject_Z (Qfloor q)) (1 # 2))
      as [Ep | Lp | Gp];
      destruct (Qcompare_spec (q - inject_Z (Qfloor q)) (1 # 2))
        as [Eq | Lq | Gq];
      try (destruct (Z.even (Qfloor q)));
      first [ apply Z.le_refl | apply Z.le_succ_diag_r | order_absurd ].
  - destruct (round_half_even_cases p) as [-> | ->];
      destruct (round_half_even_cases q) as [-> | ->]; lia.
Qed.

Lemma round1_mono (p q : Q) : p <= q -> round1 p <= round1 q.
Proof.
  intros H. unfold round1.
  assert (Hk : (round_half_even (p * inject_Z 10)
                <= round_half_even (q * inject_Z 10))%Z).
  { apply round_half_even_mono.
    apply Qmult_le_compat_r; [exact H | discriminate]. }
  unfold Qle; simpl. lia.
Qed.

Lemma round_half_even_integer (k : Z) : round_half_even (inject_Z k) = k.
Proof.
  apply Z.le_antisymm.
  - apply round_half_even_le, Qle_refl.
  - apply round_half_even_ge, Qle_refl.
Qed.

Lemma round1_tenths (q : Q) (k : Z) : q == k # 10 -> round1 q = k # 10.
Proof.
  intros E. unfold round1. f_equal.
  rewrite (round_half_even_comp (q * inject_Z 10) (inject_Z k)).
  - apply round_half_even_integer.
  - rewrite E. apply tenths_scaled.
Qed.

Lemma calculate_pour_duration_positive_rate (amount : Z) (cfg : wallet_config) :
  0 < sats_per_second cfg ->
  calculate_pour_duration amount cfg
  = Some (round1 (Qmax (Qmin (inject_Z amount / sats_per_second cfg)
                             (max_pour_duration cfg)) (1 # 2))).
Proof.
  intros Hpos. unfold calculate_pour_duration; cbv zeta.
  destruct (Qle_bool (sats_per_second cfg) 0) eqn:E.
  - apply Qle_bool_iff in E.
    exfalso. exact (Qlt_irrefl _ (Qlt_le_trans _ _ _ Hpos E)).
  - now rewrite (truediv_nonzero _ _ Hpos).
Qed.

Lemma quotient_mono (a b : Z) (r : Q) :
  0 < r -> (a <= b)%Z -> inject_Z a / r <= inject_Z b / r.
Proof.
  intros Hr Hab. unfold Qdiv. apply Qmult_le_compat_r.
  - rewrite <- Zle_Qle. exact Hab.
  - apply Qlt_le_weak, Qinv_lt_0_compat, Hr.
Qed.
End DurationOrder.

(** X1.  A larger payment never pours for a shorter time: on one wallet,
    the pour duration does not decrease when the amount increases. *)
Theorem pour_duration_monotone
    (cfg : wallet_config) (amount1 amount2 : Z) (d1 d2 : Q) :
  amount1 <= amount2 ->
  calculate_pour_duration amount1 cfg = Some d1 ->
  calculate_pour_duration amount2 cfg = Some d2 ->
  (d1 <= d2)%Q.
Proof.
  intros Hle. unfold calculate_pour_duration; cbv zeta.
  destruct (Qle_bool (sats_per_second cfg) 0) eqn:E.
  - intros [= <-] [= <-]. apply Qle_refl.
  - pose proof (rate_sign _ E) as Hpos.
    rewrite !(truediv_nonzero _ _ Hpos). intros [= <-] [= <-].
    apply round1_mono. apply Q.max_le_compat_r. apply Q.min_le_compat_r.
    now apply quotient_mono.
Qed.

(** X1 at wallet 1: 20 sats and 37 sats. *)
Lemma pour_duration_monotone_wallet_1 :
  exists d1 d2 : Q,
    calculate_pour_duration 20 WALLET_1_CONFIG = Some d1
    /\ calculate_pour_duration 37 WALLET_1_CONFIG = Some d2
    /\ (d1 <= d2)%Q.
Proof.
  exists (PyNum.round1 (20 # 10)), (PyNum.round1 (37 # 10)).
  split; [reflexivity | split; [reflexivity |]].
  apply (pour_duration_monotone WALLET_1_CONFIG 20 37); try reflexivity.
  discriminate.
Defined.

(** X2.  With a positive rate and a cap of at least half a second: a
    payment worth at most half a second pours for exactly half a second,
    and a payment worth the cap or more pours for exactly the cap, when the
    cap is a whole number of tenths. *)
Theorem pour_duration_floor_and_cap
    (cfg : wallet_config) (amount : Z) (d : Q) :
  (0 < sats_per_second cfg)%Q ->
  (1 # 2 <= max_pour_duration cfg)%Q ->
  calculate_pour_duration amount cfg = Some d ->
  ((inject_Z amount / sats_per_second cfg <= 1 # 2)%Q -> (d == 1 # 2)%Q)
  /\ (tenths (max_pour_duration cfg) ->
      (max_pour_duration cfg <= inject_Z amount / sats_per_second cfg)%Q ->
      (d == max_pour_duration cfg)%Q).
Proof.
  intros Hpos Hcap. rewrite (calculate_pour_duration_positive_rate _ _ Hpos).
  intros [= <-]. split.
  - intros Hsmall.
    rewrite (round1_tenths _ 5); [reflexivity |].
    rewrite Q.max_r; [reflexivity |].
    apply Qle_trans with (inject_Z amount / sats_per_second cfg)%Q;
      [apply Q.le_min_l | exact Hsmall].
  - intros [k Hk] Hbig.
    rewrite (round1_tenths _ k); [now symmetry |].
    rewrite Q.min_r by exact Hbig. rewrite Q.max_l by exact Hcap. exact Hk.
Qed.

(** X2 at wallet 1: 3 sats pour for 0.5 s, 250 sats for the 10 s cap. *)
Lemma pour_duration_floor_and_cap_wallet_1 :
  exists d1 d2 : Q,
    calculate_pour_duration 3 WALLET_1_CONFIG = Some d1
    /\ calculate_pour_duration 250 WALLET_1_CONFIG = Some d2
    /\ (d1 == 1 # 2)%Q /\ (d2 == 10)%Q.
Proof.
  exists (PyNum.round1 (1 # 2)), (PyNum.round1 10).
  split; [reflexivity | split; [reflexivity | split]].
  - apply (pour_duration_floor_and_cap WALLET_1_CONFIG 3);
      try reflexivity; discriminate.
  - apply (pour_duration_floor_and_cap WALLET_1_CONFIG 250);
      try reflexivity; try discriminate.
    exists 100%Z. reflexivity.
Defined.

(** ** More on the outputs *)

Lemma GPIO_output_other (g : Actuator.gpio) (pin p : Z) (v : Actuator.level) :
  p <> pin -> Actuator.GPIO_output g pin v p = g p.
Proof.
  intros H. unfold Actuator.GPIO_output.
  destruct (Z.eqb_spec p pin); [contradiction | reflexivity].
Qed.

Lemma lower_all (wallets : list wallet_config) (g : Actuator.gpio) (p : Z) :
  fold_left (fun acc wallet =>
               Actuator.GPIO_output acc (relay_pin wallet) Actuator.LOW)
            wallets g p
  = if existsb (fun wallet => p =? relay_pin wallet) wallets
    then Actuator.LOW else g p.
Proof.
  revert g.
  induction wallets as [| w rest IH]; intros g; simpl; [reflexivity |].
  rewrite IH. unfold Actuator.GPIO_output.
  destruct (p =? relay_pin w); simpl; [| reflexivity].
  now destruct (existsb _ rest).
Qed.

(** X3.  In the dual wallet monitor, [activate_solenoid] with a wallet
    leaves that wallet's relay low and every other pin as it was, on every
    path.  What it lets through is either what the hold raised, and then
    something that does not derive from [Exception], or the
    [UnboundLocalError] that follows a failure to compute the duration; and
    when it returns, the duration was computed and the hold either ended or
    raised something that the handler swallowed. *)
Theorem dual_wallet_activate_solenoid_contract
    (amount : Z) (payment_hash : string) (cfg : wallet_config)
    (sleep : Q -> Actuator.outcome) (g : Actuator.gpio) :
  let after :=
    DualWallet.activate_solenoid amount payment_hash (Some cfg) sleep g in
  fst after (relay_pin cfg) = Actuator.LOW
  /\ (forall p, p <> relay_pin cfg -> fst after p = g p)
  /\ (forall e, snd after = Actuator.Raises e ->
        (Actuator.is_Exception e = false
         /\ exists d, calculate_pour_duration amount cfg = Some d
                      /\ sleep d = Actuator.Raises e)
        \/ (e = Actuator.UnboundLocalError
            /\ calculate_pour_duration amount cfg = None))
  /\ (snd after = Actuator.Returns ->
      exists d, calculate_pour_duration amount cfg = Some d
                /\ Actuator.except_Exception (sleep d) = Actuator.Returns).
Proof.
  cbv zeta. split; [apply dual_wallet_activate_solenoid_ends_low |].
  unfold DualWallet.activate_solenoid.
  destruct (calculate_pour_duration amount cfg) as [d |]; simpl.
  - split; [| split].
    + intros p Hp. now rewrite !GPIO_output_other by assumption.
    + intros e He. left.
      destruct (sleep d) as [| e'] eqn:Es; simpl in He; [discriminate |].
      destruct (Actuator.is_Exception e') eqn:E; [discriminate |].
      injection He as <-. split; [exact E |]. now exists d.
    + intros Hr. now exists d.
  - split; [| split; [| discriminate]].
    + intros p Hp. now rewrite GPIO_output_other by assumption.
    + intros e [= <-]. right. split; reflexivity.
Qed.

(** X3 when Ctrl+C arrives during a pour on wallet 1: relay 18 is low,
    relay 19 is as before, and what goes through is what the hold raised. *)
Lemma dual_wallet_activate_solenoid_interrupted :
  fst (DualWallet.activate_solenoid 5 invoice_hash (Some WALLET_1_CONFIG)
         interrupted_sleep (fun _ => Actuator.HIGH)) 18 = Actuator.LOW
  /\ fst (DualWallet.activate_solenoid 5 invoice_hash (Some WALLET_1_CONFIG)
            interrupted_sleep (fun _ => Actuator.HIGH)) 19 = Actuator.HIGH
  /\ exists d, calculate_pour_duration 5 WALLET_1_CONFIG = Some d
               /\ interrupted_sleep d
                  = Actuator.Raises Actuator.KeyboardInterrupt.
Proof.
  destruct (dual_wallet_activate_solenoid_contract 5 invoice_hash
              WALLET_1_CONFIG interrupted_sleep (fun _ => Actuator.HIGH))
    as (Hlow & Hframe & Hexc & _).
  split; [exact Hlow | split].
  - apply (Hframe 19). discriminate.
  - destruct (Hexc Actuator.KeyboardInterrupt eq_refl)
      as [(_ & Hheld) | (Habsurd & _)]; [exact Hheld | discriminate].
Defined.

(** X4.  In the single wallet monitor, [activate_solenoid] touches no pin
    but the relay; whenever it returns the relay is low; and it returns
    unless the hold raises something that does not derive from
    [Exception]. *)
Theorem polling_activate_solenoid_contract
    (amount : Z) (payment_hash : string)
    (sleep : Q -> Actuator.outcome) (g : Actuator.gpio) :
  let after := Polling.activate_solenoid amount payment_hash sleep g in
  (forall p, p <> Polling.RELAY_PIN -> fst after p = g p)
  /\ (snd after = Actuator.Returns ->
      fst after Polling.RELAY_PIN = Actuator.LOW)
  /\ (forall e, snd after = Actuator.Raises e ->
                Actuator.is_Exception e = false
                /\ sleep Polling.SOLENOID_DURATION = Actuator.Raises e).
Proof.
  cbv zeta. unfold Polling.activate_solenoid.
  destruct (sleep Polling.SOLENOID_DURATION) as [| e'] eqn:Es; simpl.
  - split; [| split; [| discriminate]].
    + intros p Hp. now rewrite !GPIO_output_other by assumption.
    + intros _. apply GPIO_output_same.
  - destruct (Actuator.is_Exception e') eqn:E; simpl.
    + split; [| split; [| discriminate]].
      * intros p Hp. now rewrite !GPIO_output_other by assumption.
      * intros _. apply GPIO_output_same.
    + split; [| split; [discriminate |]].
      * intros p Hp. now rewrite GPIO_output_other by assumption.
      * intros e [= <-]. now split.
Qed.

(** X4 for a hold that fails with [OSError]: the call returns, relay low. *)
Lemma polling_activate_solenoid_on_error :
  fst (Polling.activate_solenoid 5 invoice_hash
         (fun _ => Actuator.Raises Actuator.OSError) (fun _ => Actuator.HIGH))
      Polling.RELAY_PIN = Actuator.LOW
  /\ fst (Polling.activate_solenoid 5 invoice_hash
            (fun _ => Actuator.Raises Actuator.OSError)
            (fun _ => Actuator.HIGH))
         19 = Actuator.HIGH.
Proof.
  destruct (polling_activate_solenoid_contract 5 invoice_hash
              (fun _ => Actuator.Raises Actuator.OSError)
              (fun _ => Actuator.HIGH))
    as (Hframe & Hlow & _).
  split.
  - apply Hlow. reflexivity.
  - apply (Hframe 19). discriminate.
Defined.

(** X5.  [setup_gpio] and [cleanup_gpio] leave the relay of every wallet
    low, whatever the outputs were, and change no other pin. *)
Theorem relays_lowered_at_setup_and_cleanup
    (wallets : list wallet_config) (g : Actuator.gpio) (p : Z) :
  (In p (map relay_pin wallets) ->
   DualWalletRun.setup_gpio wallets g p = Actuator.LOW
   /\ DualWalletRun.cleanup_gpio wallets g p = Actuator.LOW)
  /\ (~ In p (map relay_pin wallets) ->
      DualWalletRun.setup_gpio wallets g p = g p
      /\ DualWalletRun.cleanup_gpio wallets g p = g p).
Proof.
  unfold DualWalletRun.setup_gpio, DualWalletRun.cleanup_gpio.
  rewrite lower_all.
  destruct (existsb (fun wallet => p =? relay_pin wallet) wallets) eqn:E.
  - split; [auto |]. intros Hn. exfalso. apply Hn.
    apply existsb_exists in E. destruct E as (w & Hw & Ep).
    apply Z.eqb_eq in Ep. subst p. now apply in_map.
  - split; [| auto]. intros Hin. exfalso.
    apply in_map_iff in Hin. destruct Hin as (w & Ep & Hw).
    assert (Ht : existsb (fun wallet => p =? relay_pin wallet) wallets = true).
    { apply existsb_exists. exists w. split; [exact Hw |]. subst p.
      apply Z.eqb_refl. }
    congruence.
Qed.

(** X5 after a pour on wallet 1 that Ctrl+C interrupted in the single wallet
    style (relay 18 left high): the cleanup lowers it. *)
Lemma relays_lowered_after_interrupt :
  DualWalletRun.cleanup_gpio [WALLET_1_CONFIG; WALLET_2_CONFIG]
    (Actuator.GPIO_output (fun _ => Actuator.LOW) 18 Actuator.HIGH) 18
  = Actuator.LOW
  /\ DualWalletRun.cleanup_gpio [WALLET_1_CONFIG; WALLET_2_CONFIG]
       (Actuator.GPIO_output (fun _ => Actuator.LOW) 18 Actuator.HIGH) 4
     = Actuator.LOW.
Proof.
  destruct (relays_lowered_at_setup_and_cleanup
              [WALLET_1_CONFIG; WALLET_2_CONFIG]
              (Actuator.GPIO_output (fun _ => Actuator.LOW) 18 Actuator.HIGH)
              18) as [Hin _].
  destruct (relays_lowered_at_setup_and_cleanup
              [WALLET_1_CONFIG; WALLET_2_CONFIG]
              (Actuator.GPIO_output (fun _ => Actuator.LOW) 18 Actuator.HIGH)
              4) as [_ Hout].
  split.
  - apply Hin. left. reflexivity.
  - destruct Hout as [_ Hc]; [| exact Hc].
    intros [H | [H | []]]; discriminate.
Defined.

(** ** More on the scans and checks of the dual wallet monitor *)

Section ScanFacts.
Variable parse_payment_time : string -> option Z.
Variable cfg : wallet_config.

(** What one record can make the scan emit: nothing, or one activation,
    for an identifier that was not processed and now is, with the amount of
    the record in sats, which is not below the minimum. *)
Lemma scan_payment_event (st st' : DualWallet.wallet_state) (p : payment)
    (tr : list event) :
  DualWallet.scan_payment parse_payment_time cfg st p = (st', tr) ->
  tr = []
  \/ (tr = [Activate (PyNum.msat_to_sats (get_amount p)) (get_payment_hash p)]
      /\ PySet.mem (get_payment_hash p) (DualWallet.processed_payments st)
         = false
      /\ PySet.mem (get_payment_hash p) (DualWallet.processed_payments st')
         = true
      /\ below_minimum cfg p = false
      /\ 0 < get_amount p).
Proof.
  unfold DualWallet.scan_payment. fold (below_minimum cfg p).
  destruct (Z.leb_spec (get_amount p) 0) as [Hamt | Hamt];
    [intros [= <- <-]; now left |].
  destruct (PySet.mem (get_payment_hash p) (DualWallet.processed_payments st))
    eqn:Hproc; [intros [= <- <-]; now left |].
  destruct (below_minimum cfg p) eqn:Hmin; [intros [= <- <-]; now left |].
  destruct (DualWallet.payment_timestamp parse_payment_time p) as [t |];
    [| intros [= <- <-]; now left].
  destruct (DualWallet.last_check_time st <=? t);
    [| intros [= <- <-]; now left].
  destruct (get_paid p).
  - intros [= <- <-]. right. simpl.
    rewrite mem_add, String.eqb_refl. auto.
  - destruct (PyDict.mem _ _); intros [= <- <-]; now left.
Qed.

Lemma activations_single (h h0 : string) (a : Z) :
  activations h [Activate a h0] = if String.eqb h h0 then 1%nat else 0%nat.
Proof. unfold activations. simpl. now destruct (String.eqb h h0). Qed.

Lemma scan_loop_never_repeats (payments : list payment)
    (st st' : DualWallet.wallet_state) (tr : list event) (h : string) :
  DualWallet.scan_loop parse_payment_time cfg payments st = (st', tr) ->
  (activations h tr <= 1)%nat
  /\ (PySet.mem h (DualWallet.processed_payments st) = true ->
      activations h tr = 0%nat)
  /\ ((1 <= activations h tr)%nat ->
      PySet.mem h (DualWallet.processed_payments st') = true).
Proof.
  revert st st' tr.
  induction payments as [| p rest IH]; intros st st' tr; simpl.
  - intros [= <- <-]. unfold activations. simpl.
    split; [apply Nat.le_0_l | split; [reflexivity |]].
    intros H. inversion H.
  - destruct (DualWallet.scan_payment parse_payment_time cfg st p)
      as [st1 tr1] eqn:E1.
    destruct (DualWallet.scan_loop parse_payment_time cfg rest st1)
      as [st2 tr2] eqn:E2.
    intros [= <- <-]. rewrite activations_app.
    destruct (IH st1 st2 tr2 E2) as (Hone & Hzero & Hmark).
    destruct (scan_payment_grows _ _ _ _ _ _ E1) as [[Gp _] _].
    destruct (scan_loop_grows _ _ _ _ _ _ E2) as [[Gp2 _] _].
    destruct (scan_payment_event _ _ _ _ E1)
      as [-> | (-> & Hnot & Hnow & _ & _)].
    + change (activations h []) with 0%nat. simpl.
      split; [exact Hone | split; [| exact Hmark]].
      intros Hh. apply Hzero, Gp, Hh.
    + rewrite activations_single.
      destruct (String.eqb_spec h (get_payment_hash p)) as [-> | Hne].
      * rewrite (Hzero Hnow). simpl.
        split; [apply Nat.le_refl | split].
        -- intros Hh. congruence.
        -- intros _. apply Gp2, Hnow.
      * simpl. split; [exact Hone | split; [| exact Hmark]].
        intros Hh. apply Hzero, Gp, Hh.
Qed.
End ScanFacts.

(** X6.  One scan never activates the solenoid twice for one identifier,
    even when the list repeats it, never activates it for an identifier
    that was already processed, and marks every identifier it activated as
    processed. *)
Theorem scan_never_repeats
    (parse_payment_time : string -> option Z) (cfg : wallet_config)
    (st st' : DualWallet.wallet_state) (r : http_response (list payment))
    (current_time : Z) (tr : list event) (h : string) :
  DualWallet.scan_for_recent_payments parse_payment_time cfg st r current_time
  = (st', tr) ->
  (activations h tr <= 1)%nat
  /\ (PySet.mem h (DualWallet.processed_payments st) = true ->
      activations h tr = 0%nat)
  /\ ((1 <= activations h tr)%nat ->
      PySet.mem h (DualWallet.processed_payments st') = true).
Proof.
  unfold DualWallet.scan_for_recent_payments.
  destruct (get_recent_payments r) as [[| p rest] |].
  - intros [= <- <-]. unfold activations; simpl.
    split; [apply Nat.le_0_l | split; [reflexivity |]]. intros H; inversion H.
  - destruct (DualWallet.scan_loop parse_payment_time cfg (p :: rest) st)
      as [st1 tr1] eqn:E.
    intros [= <- <-]. simpl.
    now apply (scan_loop_never_repeats parse_payment_time cfg (p :: rest) st).
  - intros [= <- <-]. unfold activations; simpl.
    split; [apply Nat.le_0_l | split; [reflexivity |]]. intros H; inversion H.
Qed.

(** X6 on a list that shows the paid invoice of the examples twice. *)
Lemma scan_never_repeats_on_repeated_record :
  (activations invoice_hash
     (snd (DualWallet.scan_for_recent_payments IsoTime.parse WALLET_1_CONFIG
             (DualWallet.setup_wallet_state at_startup)
             (Response 200 [listed true; listed true]) at_first_scan))
   <= 1)%nat.
Proof.
  eapply (scan_never_repeats IsoTime.parse WALLET_1_CONFIG
            (DualWallet.setup_wallet_state at_startup) _
            (Response 200 [listed true; listed true]) at_first_scan).
  apply surjective_pairing.
Defined.

Lemma in_set_inv {V : Type} (k k' : string) (v v' : V) (d : PyDict.dict V) :
  In (k', v') (PyDict.set k v d) -> (k', v') = (k, v) \/ In (k', v') d.
Proof.
  induction d as [| [k0 v0] d IH]; simpl.
  - intros [H | []]. left. now symmetry.
  - destruct (String.eqb_spec k k0) as [-> | N]; simpl.
    + intros [H | H]; [left; now symmetry | right; now right].
    + intros [H | H]; [right; now left |].
      destruct (IH H) as [E | Hin]; [now left | right; now right].
Qed.

Lemma in_del_inv {V : Type} (k : string) (x : string * V) (d : PyDict.dict V) :
  In x (PyDict.del k d) -> In x d.
Proof.
  induction d as [| [k0 v0] d IH]; simpl; [auto |].
  destruct (String.eqb k k0); [now right |].
  intros [H | H]; [now left | right; auto].
Qed.

Lemma in_del_all_inv {V : Type} (ks : list string) (x : string * V)
    (d : PyDict.dict V) :
  In x (PyDict.del_all ks d) -> In x d.
Proof.
  unfold PyDict.del_all. revert d.
  induction ks as [| k ks IH]; intros d; simpl; [auto |].
  intros H. apply IH in H. now apply in_del_inv in H.
Qed.

Lemma msat_to_sats_nonneg (a : Z) : 0 <= PyNum.msat_to_sats a.
Proof.
  unfold PyNum.msat_to_sats.
  apply Z.div_pos; [apply Z.abs_nonneg | reflexivity].
Qed.

Lemma meets_minimum_sats (cfg : wallet_config) (p : payment) :
  below_minimum cfg p = false ->
  meets_minimum cfg (PyNum.msat_to_sats (get_amount p)).
Proof.
  unfold below_minimum, meets_minimum. intros H.
  split; [apply msat_to_sats_nonneg |]. intros Hmin.
  apply andb_false_iff in H. destruct H as [H | H].
  - apply Z.ltb_ge in H. exfalso.
    exact (Z.lt_irrefl _ (Z.lt_le_trans _ _ _ Hmin H)).
  - now apply Z.ltb_ge in H.
Qed.

Section Minimum.
Variable parse_payment_time : string -> option Z.
Variable cfg : wallet_config.

Lemma scan_payment_minimum (st st' : DualWallet.wallet_state) (p : payment)
    (tr : list event) :
  DualWallet.scan_payment parse_payment_time cfg st p = (st', tr) ->
  (forall h inv, In (h, inv) (DualWallet.pending_invoices st) ->
                 meets_minimum cfg (inv_amount inv)) ->
  (forall h inv, In (h, inv) (DualWallet.pending_invoices st') ->
                 meets_minimum cfg (inv_amount inv))
  /\ (forall a h, In (Activate a h) tr -> meets_minimum cfg a).
Proof.
  intros Hrun Hinv. revert Hrun.
  unfold DualWallet.scan_payment. fold (below_minimum cfg p).
  destruct (get_amount p <=? 0);
    [intros [= <- <-]; split; [exact Hinv | intros a h []] |].
  destruct (PySet.mem _ _);
    [intros [= <- <-]; split; [exact Hinv | intros a h []] |].
  destruct (below_minimum cfg p) eqn:Hmin;
    [intros [= <- <-]; split; [exact Hinv | intros a h []] |].
  destruct (DualWallet.payment_timestamp parse_payment_time p) as [t |];
    [| intros [= <- <-]; split; [exact Hinv | intros a h []]].
  destruct (DualWallet.last_check_time st <=? t);
    [| intros [= <- <-]; split; [exact Hinv | intros a h []]].
  destruct (get_paid p).
  - intros [= <- <-]. split; [exact Hinv |].
    intros a h [[= <- <-] | []]. now apply meets_minimum_sats.
  - destruct (PyDict.mem _ _); intros [= <- <-];
      (split; [| intros a h []]); [exact Hinv |].
    simpl. intros h inv Hin. apply in_set_inv in Hin.
    destruct Hin as [[= -> ->] | Hin]; [| now apply (Hinv h)].
    simpl. now apply meets_minimum_sats.
Qed.

Lemma scan_loop_minimum (payments : list payment)
    (st st' : DualWallet.wallet_state) (tr : list event) :
  DualWallet.scan_loop parse_payment_time cfg payments st = (st', tr) ->
  (forall h inv, In (h, inv) (DualWallet.pending_invoices st) ->
                 meets_minimum cfg (inv_amount inv)) ->
  (forall h inv, In (h, inv) (DualWallet.pending_invoices st') ->
                 meets_minimum cfg (inv_amount inv))
  /\ (forall a h, In (Activate a h) tr -> meets_minimum cfg a).
Proof.
  revert st st' tr.
  induction payments as [| p rest IH]; intros st st' tr; simpl.
  - intros [= <- <-] Hinv. split; [exact Hinv | intros a h []].
  - destruct (DualWallet.scan_payment parse_payment_time cfg st p)
      as [st1 tr1] eqn:E1.
    destruct (DualWallet.scan_loop parse_payment_time cfg rest st1)
      as [st2 tr2] eqn:E2.
    intros [= <- <-] Hinv.
    destruct (scan_payment_minimum _ _ _ _ E1 Hinv) as [Hinv1 Htr1].
    destruct (IH _ _ _ E2 Hinv1) as [Hinv2 Htr2].
    split; [exact Hinv2 |]. intros a h Hin.
    apply in_app_or in Hin. destruct Hin; eauto.
Qed.

Lemma do_tick_minimum (st st' : DualWallet.wallet_state) (t : DualWallet.tick)
    (tr : list event) :
  DualWallet.do_tick parse_payment_time cfg st t = (st', tr) ->
  (forall h inv, In (h, inv) (DualWallet.pending_invoices st) ->
                 meets_minimum cfg (inv_amount inv)) ->
  (forall h inv, In (h, inv) (DualWallet.pending_invoices st') ->
                 meets_minimum cfg (inv_amount inv))
  /\ (forall a h, In (Activate a h) tr -> meets_minimum cfg a).
Proof.
  destruct t as [r current_time | ledger now]; simpl.
  - unfold DualWallet.scan_for_recent_payments.
    destruct (get_recent_payments r) as [[| p rest] |].
    + intros [= <- <-] Hinv. split; [exact Hinv | intros a h []].
    + destruct (DualWallet.scan_loop parse_payment_time cfg (p :: rest) st)
        as [st1 tr1] eqn:E.
      intros [= <- <-] Hinv. simpl.
      exact (scan_loop_minimum _ _ _ _ E Hinv).
    + intros [= <- <-] Hinv. split; [exact Hinv | intros a h []].
  - intros Hrun Hinv. split.
    + revert Hrun. unfold DualWallet.check_pending_payments.
      destruct (DualWallet.pending_invoices st) as [| it items] eqn:Ep.
      * intros [= <- _]. rewrite Ep. intros h inv [].
      * destruct (sweep _ _ _) as [[processed completed] tr0].
        intros [= <- _]. simpl. intros h inv Hin.
        apply in_del_all_inv, in_del_all_inv in Hin. now apply (Hinv h).
    + intros a h Hin.
      assert (Hin' : In (Activate a h)
                        (snd (DualWallet.check_pending_payments
                                cfg st ledger now)))
        by now rewrite Hrun.
      apply check_events, in_map_iff in Hin'.
      destruct Hin' as ([k inv] & [= <- <-] & Hpaid).
      apply in_paid_items in Hpaid. destruct Hpaid as [Hp _].
      now apply (Hinv k).
Qed.

Lemma run_ticks_minimum (ticks : list DualWallet.tick)
    (st st' : DualWallet.wallet_state) (tr : list event) :
  DualWallet.run_ticks parse_payment_time cfg st ticks = (st', tr) ->
  (forall h inv, In (h, inv) (DualWallet.pending_invoices st) ->
                 meets_minimum cfg (inv_amount inv)) ->
  forall a h, In (Activate a h) tr -> meets_minimum cfg a.
Proof.
  revert st st' tr. induction ticks as [| t rest IH]; intros st st' tr; simpl.
  - intros [= <- <-] _ a h [].
  - destruct (DualWallet.do_tick parse_payment_time cfg st t)
      as [st1 tr1] eqn:E1.
    destruct (DualWallet.run_ticks parse_payment_time cfg st1 rest)
      as [st2 tr2] eqn:E2.
    intros [= <- <-] Hinv a h Hin.
    destruct (do_tick_minimum _ _ _ _ E1 Hinv) as [Hinv1 Htr1].
    apply in_app_or in Hin. destruct Hin; eauto.
Qed.
End Minimum.

(** X7.  From startup on, over any sequence of scans and checks with any
    answers of the ledger, the dual wallet monitor never activates the
    solenoid for a negative amount, nor, when the wallet has a positive
    minimum, for an amount below it. *)
Theorem never_activated_below_minimum
    (parse_payment_time : string -> option Z) (cfg : wallet_config)
    (now : Z) (ticks : list DualWallet.tick) (a : Z) (h : string) :
  In (Activate a h)
     (snd (DualWallet.run_ticks parse_payment_time cfg
             (DualWallet.setup_wallet_state now) ticks)) ->
  meets_minimum cfg a.
Proof.
  intros Hin.
  destruct (DualWallet.run_ticks parse_payment_time cfg
              (DualWallet.setup_wallet_state now) ticks) as [st' tr] eqn:E.
  apply (run_ticks_minimum parse_payment_time cfg ticks _ _ _ E) with h;
    [| exact Hin].
  intros k inv [].
Qed.

(** X7 at the fast confirmation of the invoice of the examples. *)
Lemma never_activated_below_minimum_fast_path :
  meets_minimum WALLET_1_CONFIG 5.
Proof.
  apply (never_activated_below_minimum IsoTime.parse WALLET_1_CONFIG
           at_startup
           [DualWallet.ScanTick (Response 200 [listed true]) at_first_scan]
           5 invoice_hash).
  left. reflexivity.
Defined.

(** ** The processed set only grows *)

Lemma check_pending_grows (cfg : wallet_config)
    (st : DualWallet.wallet_state)
    (ledger : string -> http_response payment) (now : Z) (h : string) :
  PySet.mem h (DualWallet.processed_payments st) = true ->
  PySet.mem h (DualWallet.processed_payments
                 (fst (DualWallet.check_pending_payments cfg st ledger now)))
  = true.
Proof.
  intros Hh. unfold DualWallet.check_pending_payments.
  destruct (DualWallet.pending_invoices st); [exact Hh |].
  rewrite sweep_eq. simpl. rewrite mem_add_all_keys, Hh. apply orb_true_r.
Qed.

(** X8.  Scans and checks never take an identifier out of the processed
    set: whatever the ledger answers, an identifier that is processed stays
    processed (only the periodic cleanup forgets identifiers). *)
Theorem processed_stays_processed
    (parse_payment_time : string -> option Z) (cfg : wallet_config)
    (ticks : list DualWallet.tick) (st : DualWallet.wallet_state)
    (h : string) :
  PySet.mem h (DualWallet.processed_payments st) = true ->
  PySet.mem h
    (DualWallet.processed_payments
       (fst (DualWallet.run_ticks parse_payment_time cfg st ticks)))
  = true.
Proof.
  revert st. induction ticks as [| t rest IH]; intros st Hh; simpl;
    [exact Hh |].
  assert (H1 : PySet.mem h
                 (DualWallet.processed_payments
                    (fst (DualWallet.do_tick parse_payment_time cfg st t)))
               = true).
  { destruct t as [r current_time | ledger now]; simpl.
    - unfold DualWallet.scan_for_recent_payments.
      destruct (get_recent_payments r) as [[| p ps] |]; try exact Hh.
      destruct (DualWallet.scan_loop parse_payment_time cfg (p :: ps) st)
        as [st1 tr1] eqn:E.
      simpl. destruct (scan_loop_grows _ _ _ _ _ _ E) as [[Gp _] _]. auto.
    - now apply check_pending_grows. }
  destruct (DualWallet.do_tick parse_payment_time cfg st t) as [st1 tr1].
  specialize (IH st1 H1).
  destruct (DualWallet.run_ticks parse_payment_time cfg st1 rest).
  exact IH.
Qed.

(** X8 for a payment below the minimum, over a later scan and check. *)
Lemma processed_stays_processed_after_small_payment :
  PySet.mem "small"
    (DualWallet.processed_payments
       (fst (DualWallet.run_ticks IsoTime.parse WALLET_2_CONFIG
               {| DualWallet.pending_invoices := [];
                  DualWallet.processed_payments := ["small"%string];
                  DualWallet.last_check_time := at_startup |}
               [DualWallet.ScanTick (Response 200 [listed true]) at_first_scan;
                DualWallet.CheckTick ledger_paid at_second_scan])))
  = true.
Proof.
  apply processed_stays_processed. reflexivity.
Defined.

(** X9.  A check activates the solenoid exactly once for each pending
    identifier that the status endpoint reports as paid, and not at all for
    any other identifier. *)
Theorem check_activates_exactly_the_paid
    (cfg : wallet_config) (st : DualWallet.wallet_state)
    (ledger : string -> http_response payment) (now : Z) (h : string) :
  NoDup (PyDict.keys (DualWallet.pending_invoices st)) ->
  activations h (snd (DualWallet.check_pending_payments cfg st ledger now))
  = if PyDict.mem h (DualWallet.pending_invoices st)
       && reported_paid ledger h
    then 1%nat else 0%nat.
Proof.
  intros Hnd. rewrite check_pending_payments_eq by assumption. simpl.
  rewrite activations_in_trace.
  destruct (PyDict.mem h (DualWallet.pending_invoices st)) eqn:Hm;
    [destruct (reported_paid ledger h) eqn:Hp |]; simpl.
  - apply mem_keys, in_map_iff in Hm. destruct Hm as ([k inv] & E & Hin).
    simpl in E; subst k.
    apply activations_once with inv; [now apply keys_filter_NoDup |].
    apply in_paid_items. now split.
  - apply activations_none. intros H. apply paid_items_keys in H.
    destruct H. congruence.
  - apply activations_none. intros H. apply paid_items_keys in H.
    destruct H as [_ H]. apply mem_keys in H. congruence.
Qed.

(** X9 at the invoice of the examples, reported paid. *)
Lemma check_activates_exactly_the_paid_at_example :
  activations invoice_hash
    (snd (DualWallet.check_pending_payments
            WALLET_1_CONFIG day_old_state ledger_paid 3600000000))
  = 1%nat
  /\ activations "other"
       (snd (DualWallet.check_pending_payments
               WALLET_1_CONFIG day_old_state ledger_paid 3600000000))
     = 0%nat.
Proof.
  split.
  - rewrite check_activates_exactly_the_paid; [reflexivity |].
    repeat constructor. intros [].
  - rewrite check_activates_exactly_the_paid; [reflexivity |].
    repeat constructor. intros [].
Defined.

(** ** More on the single wallet monitor *)

(** X10.  In the single wallet monitor no identifier is ever both pending
    and processed, and the pending map never holds an identifier twice,
    whatever the ledger answers over any sequence of scans and checks. *)
Theorem polling_pending_and_processed_disjoint
    (ticks : list Polling.tick) (h : string) :
  let st := fst (Polling.run_ticks Polling.init ticks) in
  NoDup (PyDict.keys (Polling.pending_invoices st))
  /\ (PyDict.mem h (Polling.pending_invoices st) = true ->
      PySet.mem h (Polling.processed_payments st) = false).
Proof.
  cbv zeta.
  destruct (Polling.run_ticks Polling.init ticks) as [st' tr'] eqn:E.
  apply (polling_run_invariant ticks Polling.init st' [] tr'
           polling_invariant_init) in E.
  destruct E as (Hnd & Hdis & _ & _). simpl. split; [exact Hnd | apply Hdis].
Qed.

(** X10 after a scan that finds the invoice of the examples unpaid. *)
Lemma polling_pending_and_processed_disjoint_at_example :
  PySet.mem invoice_hash
    (Polling.processed_payments
       (fst (Polling.run_ticks Polling.init
               [Polling.ScanTick (Response 200 [listed false])
                  ledger_unpaid at_first_scan])))
  = false.
Proof.
  apply (polling_pending_and_processed_disjoint
           [Polling.ScanTick (Response 200 [listed false])
              ledger_unpaid at_first_scan] invoice_hash).
  reflexivity.
Defined.

(** X11.  In the single wallet monitor an identifier that is in the
    processed set is never activated afterwards.  In particular a payment
    that the status endpoint already reports as paid when a scan first sees
    it (it is marked processed on the spot) never opens the solenoid. *)
Theorem polling_processed_never_activated
    (before after : list Polling.tick) (h : string) :
  let st := fst (Polling.run_ticks Polling.init before) in
  PySet.mem h (Polling.processed_payments st) = true ->
  activations h (snd (Polling.run_ticks st after)) = 0%nat.
Proof.
  cbv zeta. intros Hh.
  destruct (Polling.run_ticks Polling.init before) as [st tr] eqn:E.
  apply (polling_run_invariant before Polling.init st [] tr
           polling_invariant_init) in E.
  destruct E as (Hnd & Hdis & _ & _). simpl in *.
  assert (Hinv : polling_invariant st [Activate 0 h]).
  { split; [exact Hnd | split; [exact Hdis | split]].
    - intros k Hk. rewrite activations_single.
      destruct (String.eqb_spec k h) as [-> | _]; [congruence | reflexivity].
    - intros k. rewrite activations_single.
      destruct (String.eqb k h); repeat constructor. }
  destruct (Polling.run_ticks st after) as [st' tr'] eqn:E'.
  apply (polling_run_invariant after st st' _ tr' Hinv) in E'.
  destruct E' as (_ & _ & _ & Hone). specialize (Hone h).
  rewrite activations_app, activations_single, String.eqb_refl in Hone.
  simpl. apply Nat.succ_le_mono in Hone. now apply Nat.le_0_r in Hone.
Qed.

(** X11 for an invoice that is already paid at the first scan and is still
    listed and reported as paid at the next scan and check. *)
Lemma polling_historical_payment_not_activated :
  activations invoice_hash
    (snd (Polling.run_ticks
            (fst (Polling.run_ticks Polling.init
                    [Polling.ScanTick (Response 200 [listed true])
                       ledger_paid at_first_scan]))
            [Polling.ScanTick (Response 200 [listed true])
               ledger_paid at_second_scan;
             Polling.CheckTick ledger_paid at_second_scan]))
  = 0%nat.
Proof.
  apply (polling_processed_never_activated
           [Polling.ScanTick (Response 200 [listed true])
              ledger_paid at_first_scan]
           [Polling.ScanTick (Response 200 [listed true])
              ledger_paid at_second_scan;
            Polling.CheckTick ledger_paid at_second_scan]
           invoice_hash).
  reflexivity.
Defined.

(** ** Witnesses of earlier statements *)

(** The watermark after startup, a scan and a check made at advancing
    clock readings. *)
Lemma watermark_behind_clock_at_example :
  DualWallet.last_check_time
    (fst (DualWallet.run_ticks IsoTime.parse WALLET_1_CONFIG
            (DualWallet.setup_wallet_state at_startup)
            [DualWallet.ScanTick (Response 200 [listed false]) at_first_scan;
             DualWallet.CheckTick ledger_unpaid at_second_scan]))
  <= at_second_scan.
Proof.
  apply (watermark_behind_clock_from_startup IsoTime.parse WALLET_1_CONFIG
           [DualWallet.ScanTick (Response 200 [listed false]) at_first_scan;
            DualWallet.CheckTick ledger_unpaid at_second_scan]
           at_startup).
  simpl. repeat split; discriminate.
Defined.

(** ** The timestamp of a record *)

(** X12.  The timestamp of a record is taken from ['time'] when that field
    is present, not empty, and accepted by the time parser; otherwise from
    ['created_at'] on the same condition; otherwise from ['paid_at'];
    otherwise from ['date']; and the record has no timestamp when none of
    the four qualifies. *)
Theorem payment_timestamp_preference
    (parse_payment_time : string -> option Z) (p : payment) :
  let usable := usable_time parse_payment_time in
  let timestamp := DualWallet.payment_timestamp parse_payment_time p in
  (forall t, usable (pay_time p) = Some t -> timestamp = Some t)
  /\ (usable (pay_time p) = None ->
      forall t, usable (pay_created_at p) = Some t -> timestamp = Some t)
  /\ (usable (pay_time p) = None -> usable (pay_created_at p) = None ->
      forall t, usable (pay_paid_at p) = Some t -> timestamp = Some t)
  /\ (usable (pay_time p) = None -> usable (pay_created_at p) = None ->
      usable (pay_paid_at p) = None ->
      timestamp = usable (pay_date p)).
Proof.
  cbv zeta. unfold DualWallet.payment_timestamp, usable_time.
  destruct (pay_time p) as [s1 |], (pay_created_at p) as [s2 |],
           (pay_paid_at p) as [s3 |], (pay_date p) as [s4 |]; simpl;
    repeat match goal with
           | |- context [String.eqb ?s EmptyString] =>
               destruct (String.eqb s EmptyString)
           | |- context [parse_payment_time ?s] =>
               destruct (parse_payment_time s)
           end;
    repeat split; intros; congruence.
Qed.

(** X12 on a record whose ['time'] does not parse and which carries both a
    ['created_at'] and a later ['date']: the timestamp is that of
    ['created_at']. *)
Lemma payment_timestamp_preference_at_example :
  DualWallet.payment_timestamp IsoTime.parse twice_stamped
  = Some 1704067510000000
  /\ usable_time IsoTime.parse (pay_date twice_stamped)
     = Some 1704153600000000.
Proof.
  destruct (payment_timestamp_preference IsoTime.parse twice_stamped)
    as (_ & Hsecond & _).
  split; [| reflexivity].
  apply Hsecond; reflexivity.
Defined.

(** ** The periodic cleanup *)

(** X13.  The housekeeping of the polling loop advances the counter by one
    and keeps the wallets.  On the turns where the counter is not a
    multiple of 300 it changes no state; on the others, whatever the order
    in which a set is enumerated, every wallet is left with at most 1000
    processed identifiers, all of them processed before, and with its
    pending map and watermark untouched. *)
Theorem housekeeping_bounds_processed
    (set_order : list string -> list string) (cleanup_counter counter' : Z)
    (states states' : PyDict.dict DualWallet.wallet_state) :
  enumeration set_order ->
  DualWalletRun.housekeeping set_order cleanup_counter states
  = (counter', states') ->
  counter' = cleanup_counter + 1
  /\ PyDict.keys states' = PyDict.keys states
  /\ (counter' mod 300 <> 0 -> states' = states)
  /\ (counter' mod 300 = 0 ->
      forall id st', In (id, st') states' ->
        (List.length (DualWallet.processed_payments st') <= 1000)%nat
        /\ exists st,
             In (id, st) states
             /\ DualWallet.pending_invoices st' = DualWallet.pending_invoices st
             /\ DualWallet.last_check_time st' = DualWallet.last_check_time st
             /\ (forall x, In x (DualWallet.processed_payments st') ->
                           In x (DualWallet.processed_payments st))).
Proof.
  intros Henum. unfold DualWalletRun.housekeeping. cbv zeta.
  intros [= <- <-]. split; [reflexivity |].
  destruct (Z.eqb_spec ((cleanup_counter + 1) mod 300) 0) as [E | N].
  - split.
    + unfold DualWallet.cleanup_old_processed_payments, PyDict.keys.
      rewrite map_map. reflexivity.
    + split; [contradiction |]. intros _ id st' Hin.
      unfold DualWallet.cleanup_old_processed_payments in Hin.
      apply in_map_iff in Hin. destruct Hin as ([id0 st] & [= <- <-] & Hin).
      simpl.
      destruct (Nat.le_gt_cases
                  (List.length (DualWallet.processed_payments st)) 1000)
        as [Hsmall | Hbig].
      * rewrite (cleanup_wallet_state_small set_order st Hsmall).
        split; [exact Hsmall |]. exists st. auto.
      * destruct (cleanup_wallet_state_size set_order Henum st Hbig)
          as (Hlen & Hsub & Hpend).
        split.
        -- rewrite Hlen. repeat constructor.
        -- exists st. split; [exact Hin | split; [exact Hpend | split]].
           ++ unfold DualWallet.cleanup_wallet_state.
              now destruct (_ <? _).
           ++ exact Hsub.
  - split; [reflexivity | split; [reflexivity | contradiction]].
Qed.

(** X13 at the 300th turn, on a wallet with 1001 processed identifiers. *)
Lemma housekeeping_bounds_processed_at_300 :
  (List.length
     (DualWallet.processed_payments
        (DualWallet.cleanup_wallet_state newest_first thousand_and_one))
   <= 1000)%nat.
Proof.
  destruct (housekeeping_bounds_processed newest_first 299 300
              [("your-wallet-1-id"%string, thousand_and_one)]
              [("your-wallet-1-id"%string,
                DualWallet.cleanup_wallet_state newest_first thousand_and_one)]
              newest_first_enumerates eq_refl)
    as (_ & _ & _ & Hclean).
  destruct (Hclean eq_refl "your-wallet-1-id"%string
              (DualWallet.cleanup_wallet_state newest_first thousand_and_one))
    as [Hlen _].
  - left. reflexivity.
  - exact Hlen.
Defined.

(** ** Startup checks *)

Lemma app_nil_iff {A : Type} (l1 l2 : list A) :
  l1 ++ l2 = [] <-> l1 = [] /\ l2 = [].
Proof.
  split; [apply app_eq_nil | intros [-> ->]; reflexivity].
Qed.

Lemma placeholders_of_nil (i : nat) (wallet : DualWalletRun.wallet_settings) :
  DualWalletRun.placeholders_of i wallet = [] <->
  DualWalletRun.lnbits_url wallet <> "https://your-lnbits-server.com"%string
  /\ DualWalletRun.api_key wallet
     <> String.append "your-wallet-"
          (String.append (DualWalletRun.index_string i) "-api-key")
  /\ wallet_id (DualWalletRun.config wallet)
     <> String.append "your-wallet-"
          (String.append (DualWalletRun.index_string i) "-id").
Proof.
  unfold DualWalletRun.placeholders_of. rewrite !app_nil_iff.
  destruct (String.eqb_spec (DualWalletRun.lnbits_url wallet)
              "https://your-lnbits-server.com");
    destruct (String.eqb_spec (DualWalletRun.api_key wallet)
                (String.append "your-wallet-"
                   (String.append (DualWalletRun.index_string i) "-api-key")));
    destruct (String.eqb_spec (wallet_id (DualWalletRun.config wallet))
                (String.append "your-wallet-"
                   (String.append (DualWalletRun.index_string i) "-id")));
    split; intros H; try tauto;
    try (destruct H as (H1 & H2 & H3); discriminate);
    try (destruct H as (H1 & H2 & H3); contradiction).
Qed.

(** X14.  [main] creates and runs the monitor exactly when neither wallet
    still has a placeholder for its server, key or wallet id and the two
    relays are on different pins; otherwise it exits with status 1.  In
    particular two wallets on one pin never run, and the report says so. *)
Theorem main_runs_only_when_configured
    (w1 w2 : DualWalletRun.wallet_settings) :
  (DualWalletRun.main w1 w2 = DualWalletRun.MonitorRuns <->
   (DualWalletRun.lnbits_url w1 <> "https://your-lnbits-server.com"%string
    /\ DualWalletRun.api_key w1 <> "your-wallet-1-api-key"%string
    /\ wallet_id (DualWalletRun.config w1) <> "your-wallet-1-id"%string)
   /\ (DualWalletRun.lnbits_url w2 <> "https://your-lnbits-server.com"%string
       /\ DualWalletRun.api_key w2 <> "your-wallet-2-api-key"%string
       /\ wallet_id (DualWalletRun.config w2) <> "your-wallet-2-id"%string)
   /\ relay_pin (DualWalletRun.config w1)
      <> relay_pin (DualWalletRun.config w2))
  /\ (DualWalletRun.main w1 w2 <> DualWalletRun.MonitorRuns ->
      exists items, DualWalletRun.main w1 w2 = DualWalletRun.SysExit 1 items
                    /\ items <> [])
  /\ (relay_pin (DualWalletRun.config w1)
      = relay_pin (DualWalletRun.config w2) ->
      exists items,
        DualWalletRun.main w1 w2 = DualWalletRun.SysExit 1 items
        /\ In "GPIO pins must be different for each wallet"%string items).
Proof.
  split; [| split].
  - change "your-wallet-1-api-key"%string
      with (String.append "your-wallet-"
              (String.append (DualWalletRun.index_string 1) "-api-key")).
    change "your-wallet-1-id"%string
      with (String.append "your-wallet-"
              (String.append (DualWalletRun.index_string 1) "-id")).
    change "your-wallet-2-api-key"%string
      with (String.append "your-wallet-"
              (String.append (DualWalletRun.index_string 2) "-api-key")).
    change "your-wallet-2-id"%string
      with (String.append "your-wallet-"
              (String.append (DualWalletRun.index_string 2) "-id")).
    rewrite <- !placeholders_of_nil.
    unfold DualWalletRun.main, DualWalletRun.missing_config.
    destruct (Z.eqb_spec (relay_pin (DualWalletRun.config w1))
                (relay_pin (DualWalletRun.config w2))) as [E | N].
    + split.
      * destruct (DualWalletRun.placeholders_of 1 w1 ++
                  DualWalletRun.placeholders_of 2 w2 ++ _) eqn:El;
          [| discriminate].
        apply app_eq_nil in El. destruct El as [_ El].
        apply app_eq_nil in El. destruct El as [_ El]. discriminate.
      * intros (_ & _ & H). contradiction.
    + rewrite app_nil_r. split.
      * destruct (DualWalletRun.placeholders_of 1 w1 ++
                  DualWalletRun.placeholders_of 2 w2) eqn:El;
          [| discriminate].
        apply app_eq_nil in El. intros _. tauto.
      * intros (-> & -> & _). reflexivity.
  - unfold DualWalletRun.main.
    destruct (DualWalletRun.missing_config w1 w2) as [| item items];
      [intros H; now contradiction H |].
    intros _. exists (item :: items). split; [reflexivity | discriminate].
  - intros E. unfold DualWalletRun.main, DualWalletRun.missing_config.
    apply Z.eqb_eq in E. rewrite E.
    destruct (DualWalletRun.placeholders_of 1 w1 ++
              DualWalletRun.placeholders_of 2 w2 ++ _) as [| item items] eqn:El.
    + apply app_eq_nil in El. destruct El as [_ El].
      apply app_eq_nil in El. destruct El as [_ El]. discriminate.
    + exists (item :: items). split; [reflexivity |]. rewrite <- El.
      apply in_or_app. right. apply in_or_app. right. now left.
Qed.

(** X14 on the shipped wallets, once given a server, keys and ids, on pins
    18 and 19. *)
Lemma main_runs_only_when_configured_at_example :
  DualWalletRun.main
    {| DualWalletRun.config :=
         {| name := "Wallet 1"; wallet_id := "4f1c"; relay_pin := 18;
            min_payment_amount := 1; sats_per_second := 10;
            max_pour_duration := 10; default_duration := 5 |};
       DualWalletRun.lnbits_url := "https://lnbits.example.org";
       DualWalletRun.api_key := "a1" |}
    {| DualWalletRun.config :=
         {| name := "Wallet 2"; wallet_id := "9b2e"; relay_pin := 19;
            min_payment_amount := 5; sats_per_second := 15;
            max_pour_duration := 15; default_duration := 7 |};
       DualWalletRun.lnbits_url := "https://lnbits.example.org";
       DualWalletRun.api_key := "b2" |}
  = DualWalletRun.MonitorRuns.
Proof.
  apply main_runs_only_when_configured.
  repeat split; discriminate.
Defined.

(** ** The polling loop over the wallets *)

Section DictUpdate.
Context {V : Type}.
Implicit Types (d : PyDict.dict V) (k : string).

Lemma get_set_same k (v : V) d : PyDict.get k (PyDict.set k v d) = Some v.
Proof.
  induction d as [| [k0 v0] d IH]; simpl.
  - now rewrite String.eqb_refl.
  - destruct (String.eqb k k0) eqn:E; simpl; now rewrite E.
Qed.

Lemma get_set_other k k' (v : V) d :
  k' <> k -> PyDict.get k' (PyDict.set k v d) = PyDict.get k' d.
Proof.
  intros Hne. induction d as [| [k0 v0] d IH]; simpl.
  - apply String.eqb_neq in Hne. now rewrite Hne.
  - destruct (String.eqb_spec k k0) as [-> | N]; simpl.
    + apply String.eqb_neq in Hne. now rewrite Hne.
    + now rewrite IH.
Qed.

Lemma keys_set_present k (v : V) d :
  PyDict.mem k d = true -> PyDict.keys (PyDict.set k v d) = PyDict.keys d.
Proof.
  unfold PyDict.mem. induction d as [| [k0 v0] d IH]; simpl; [discriminate |].
  destruct (String.eqb k k0); simpl; [reflexivity |].
  intros H. f_equal. auto.
Qed.

Lemma mem_get k d :
  PyDict.mem k d = true <-> exists v, PyDict.get k d = Some v.
Proof.
  unfold PyDict.mem. destruct (PyDict.get k d) as [v |].
  - split; [now exists v | reflexivity].
  - split; [discriminate | intros [v H]; discriminate].
Qed.
End DictUpdate.

Lemma setup_wallet_states_covers (wallets : list (wallet_config * Z))
    (id : string) :
  In id (map (fun entry => wallet_id (fst entry)) wallets) ->
  PyDict.mem id (DualWalletRun.setup_wallet_states wallets) = true.
Proof.
  unfold DualWalletRun.setup_wallet_states.
  assert (Hgen : forall acc,
             PyDict.mem id acc = true
             \/ In id (map (fun entry => wallet_id (fst entry)) wallets) ->
             PyDict.mem id
               (fold_left
                  (fun states entry =>
                     PyDict.set (wallet_id (fst entry))
                       (DualWallet.setup_wallet_state (snd entry)) states)
                  wallets acc) = true).
  { induction wallets as [| [w now] rest IH]; intros acc; simpl.
    - intros [H | []]. exact H.
    - intros H. apply IH. rewrite mem_set.
      destruct (String.eqb_spec id (wallet_id w)) as [E | N]; [now left |].
      simpl. destruct H as [H | [H | H]]; [now left | | now right].
      now contradiction N. }
  intros H. apply Hgen. now right.
Qed.

Section LoopFacts.
Variable parse_payment_time : string -> option Z.

Lemma poll_wallet_inv (states states1 : PyDict.dict DualWallet.wallet_state)
    (wallet : wallet_config) (a : DualWalletRun.answers) (tr1 : list event) :
  DualWalletRun.poll_wallet parse_payment_time states wallet a
  = Some (states1, tr1) ->
  exists st, PyDict.get (wallet_id wallet) states = Some st
             /\ states1
                = PyDict.set (wallet_id wallet)
                             (polled parse_payment_time wallet a st) states.
Proof.
  unfold DualWalletRun.poll_wallet.
  destruct (PyDict.get (wallet_id wallet) states) as [st |]; [| discriminate].
  destruct (DualWallet.scan_for_recent_payments _ _ _ _ _) as [st1 t1] eqn:Es.
  destruct (DualWallet.check_pending_payments _ _ _ _) as [st2 t2] eqn:Ec.
  intros [= <- _]. exists st. split; [reflexivity |].
  unfold polled. rewrite Es. simpl. now rewrite Ec.
Qed.

Lemma poll_wallets_frame (polls : list (wallet_config * DualWalletRun.answers))
    (states states' : PyDict.dict DualWallet.wallet_state)
    (tr : list event) (k : string) :
  (forall wallet a, In (wallet, a) polls -> wallet_id wallet <> k) ->
  DualWalletRun.poll_wallets parse_payment_time states polls
  = Some (states', tr) ->
  PyDict.get k states' = PyDict.get k states.
Proof.
  revert states states' tr.
  induction polls as [| [w a] rest IH]; intros states states' tr Hk; simpl.
  - now intros [= <- _].
  - destruct (DualWalletRun.poll_wallet parse_payment_time states w a)
      as [[states1 tr1] |] eqn:E1; [| discriminate].
    destruct (DualWalletRun.poll_wallets parse_payment_time states1 rest)
      as [[states2 tr2] |] eqn:E2; [| discriminate].
    intros [= <- _].
    rewrite (IH _ _ _ (fun w' a' H => Hk w' a' (or_intror H)) E2).
    apply poll_wallet_inv in E1. destruct E1 as (st & _ & ->).
    apply get_set_other. intros E. now apply (Hk w a (or_introl eq_refl)).
Qed.

Lemma poll_wallets_own (polls : list (wallet_config * DualWalletRun.answers))
    (states states' : PyDict.dict DualWallet.wallet_state) (tr : list event)
    (wallet : wallet_config) (a : DualWalletRun.answers)
    (st : DualWallet.wallet_state) :
  NoDup (map (fun poll => wallet_id (fst poll)) polls) ->
  DualWalletRun.poll_wallets parse_payment_time states polls
  = Some (states', tr) ->
  In (wallet, a) polls ->
  PyDict.get (wallet_id wallet) states = Some st ->
  PyDict.get (wallet_id wallet) states'
  = Some (polled parse_payment_time wallet a st).
Proof.
  revert states states' tr.
  induction polls as [| [w0 a0] rest IH]; intros states states' tr Hnd; simpl;
    [intros _ [] |].
  inversion Hnd as [| ? ? Hfresh Hrest]; subst.
  destruct (DualWalletRun.poll_wallet parse_payment_time states w0 a0)
    as [[states1 tr1] |] eqn:E1; [| discriminate].
  destruct (DualWalletRun.poll_wallets parse_payment_time states1 rest)
    as [[states2 tr2] |] eqn:E2; [| discriminate].
  intros [= <- _] Hin Hget.
  apply poll_wallet_inv in E1. destruct E1 as (st0 & Hget0 & ->).
  destruct Hin as [[= -> ->] | Hin].
  - assert (Hk : forall w' a', In (w', a') rest ->
                               wallet_id w' <> wallet_id wallet).
    { intros w' a' Hin' E. apply Hfresh. rewrite <- E.
      apply in_map_iff. now exists (w', a'). }
    rewrite (poll_wallets_frame rest _ _ _ (wallet_id wallet) Hk E2).
    rewrite get_set_same. congruence.
  - apply (IH _ _ _ Hrest E2 Hin).
    rewrite get_set_other; [exact Hget |].
    intros E. apply Hfresh. rewrite <- E.
    apply in_map_iff. now exists (wallet, a).
Qed.

Lemma poll_wallets_total (polls : list (wallet_config * DualWalletRun.answers))
    (states : PyDict.dict DualWallet.wallet_state) :
  (forall wallet a, In (wallet, a) polls ->
                    PyDict.mem (wallet_id wallet) states = true) ->
  exists states' tr,
    DualWalletRun.poll_wallets parse_payment_time states polls
    = Some (states', tr)
    /\ PyDict.keys states' = PyDict.keys states.
Proof.
  revert states.
  induction polls as [| [w a] rest IH]; intros states Hall; simpl.
  - now exists states, [].
  - pose proof (Hall w a (or_introl eq_refl)) as Hw.
    destruct (proj1 (mem_get _ _) Hw) as [st Hst].
    unfold DualWalletRun.poll_wallet at 1. rewrite Hst.
    destruct (DualWallet.scan_for_recent_payments _ _ _ _ _) as [st1 t1].
    destruct (DualWallet.check_pending_payments _ _ _ _) as [st2 t2].
    destruct (IH (PyDict.set (wallet_id w) st2 states))
      as (states' & tr & E & K).
    + intros w' a' Hin. rewrite mem_set.
      rewrite (Hall w' a' (or_intror Hin)). apply orb_true_r.
    + rewrite E. exists states', ((t1 ++ t2) ++ tr).
      split; [reflexivity |]. rewrite K. now apply keys_set_present.
Qed.
End LoopFacts.

(** X15.  A turn of the polling loop never fails on a missing wallet state
    after [setup_wallet_states], and it keeps the set of wallets.  When the
    wallets have distinct ids, each wallet's new state is exactly its own
    scan followed by its own check, applied to its own previous state; the
    answers given to the other wallets play no part, and states of ids
    that are not polled are untouched. *)
Theorem wallets_polled_independently
    (parse_payment_time : string -> option Z)
    (wallets : list (wallet_config * Z))
    (polls : list (wallet_config * DualWalletRun.answers)) :
  (forall wallet a, In (wallet, a) polls ->
     In (wallet_id wallet)
        (map (fun entry => wallet_id (fst entry)) wallets)) ->
  NoDup (map (fun poll => wallet_id (fst poll)) polls) ->
  exists states' tr,
    DualWalletRun.poll_wallets parse_payment_time
      (DualWalletRun.setup_wallet_states wallets) polls
    = Some (states', tr)
    /\ PyDict.keys states'
       = PyDict.keys (DualWalletRun.setup_wallet_states wallets)
    /\ (forall wallet a st,
          In (wallet, a) polls ->
          PyDict.get (wallet_id wallet)
                     (DualWalletRun.setup_wallet_states wallets) = Some st ->
          PyDict.get (wallet_id wallet) states'
          = Some (fst (DualWallet.check_pending_payments wallet
                         (fst (DualWallet.scan_for_recent_payments
                                 parse_payment_time wallet st
                                 (DualWalletRun.list_answer a)
                                 (DualWalletRun.scan_time a)))
                         (DualWalletRun.status_answer a)
                         (DualWalletRun.check_time a))))
    /\ (forall k,
          (forall wallet a, In (wallet, a) polls -> wallet_id wallet <> k) ->
          PyDict.get k states'
          = PyDict.get k (DualWalletRun.setup_wallet_states wallets)).
Proof.
  intros Hcover Hnd.
  destruct (poll_wallets_total parse_payment_time polls
              (DualWalletRun.setup_wallet_states wallets))
    as (states' & tr & E & K).
  { intros w a Hin. apply setup_wallet_states_covers. now apply (Hcover w a). }
  exists states', tr. split; [exact E | split; [exact K | split]].
  - intros w a st Hin Hget.
    exact (poll_wallets_own parse_payment_time polls _ _ _ w a st
             Hnd E Hin Hget).
  - intros k Hk.
    exact (poll_wallets_frame parse_payment_time polls _ _ _ k Hk E).
Qed.

(** X15 on the two shipped wallets, each with its own answers. *)
Lemma wallets_polled_independently_at_example :
  exists states' tr,
    DualWalletRun.poll_wallets IsoTime.parse
      (DualWalletRun.setup_wallet_states
         [(WALLET_1_CONFIG, at_startup); (WALLET_2_CONFIG, at_startup)])
      [(WALLET_1_CONFIG, example_answers true);
       (WALLET_2_CONFIG, example_answers false)]
    = Some (states', tr)
    /\ PyDict.keys states'
       = ["your-wallet-1-id"%string; "your-wallet-2-id"%string].
Proof.
  destruct (wallets_polled_independently IsoTime.parse
              [(WALLET_1_CONFIG, at_startup); (WALLET_2_CONFIG, at_startup)]
              [(WALLET_1_CONFIG, example_answers true);
               (WALLET_2_CONFIG, example_answers false)])
    as (states' & tr & E & K & _).
  - intros w a [[= <- _] | [[= <- _] | []]]; simpl; auto.
  - apply NoDup_cons; [simpl; intros [H | []]; discriminate |].
    apply NoDup_cons; [intros [] | apply NoDup_nil].
  - exists states', tr. split; [exact E | rewrite K; reflexivity].
Defined.

(** ** Records that the scan passes over *)

Section Passing.
Variable parse_payment_time : string -> option Z.
Variable cfg : wallet_config.

Lemma scan_loop_incoming (payments : list payment)
    (st : DualWallet.wallet_state) :
  DualWallet.scan_loop parse_payment_time cfg (filter incoming payments) st
  = DualWallet.scan_loop parse_payment_time cfg payments st.
Proof.
  revert st. induction payments as [| p rest IH]; intros st; simpl;
    [reflexivity |].
  unfold incoming at 1. destruct (Z.ltb_spec 0 (get_amount p)) as [Hin | Hout].
  - simpl. destruct (DualWallet.scan_payment parse_payment_time cfg st p).
    now rewrite IH.
  - rewrite IH. unfold DualWallet.scan_payment.
    destruct (Z.leb_spec (get_amount p) 0) as [_ | Hpos].
    + now destruct (DualWallet.scan_loop parse_payment_time cfg rest st).
    + exfalso. exact (Z.lt_irrefl _ (Z.lt_le_trans _ _ _ Hpos Hout)).
Qed.

Lemma in_set_new {V : Type} (k : string) (v : V) (x : string * V)
    (d : PyDict.dict V) :
  PyDict.mem k d = false -> In x d -> In x (PyDict.set k v d).
Proof.
  unfold PyDict.mem. induction d as [| [k0 v0] d IH]; simpl; [intros _ [] |].
  destruct (String.eqb k k0); [discriminate |].
  intros Hm [H | H]; [now left | right; auto].
Qed.

Lemma scan_payment_keeps (st st' : DualWallet.wallet_state) (p : payment)
    (tr : list event) (x : string * invoice) :
  DualWallet.scan_payment parse_payment_time cfg st p = (st', tr) ->
  In x (DualWallet.pending_invoices st) ->
  In x (DualWallet.pending_invoices st').
Proof.
  unfold DualWallet.scan_payment.
  destruct (get_amount p <=? 0); [now intros [= <- _] |].
  destruct (PySet.mem _ _); [now intros [= <- _] |].
  destruct (_ && _); [now intros [= <- _] |].
  destruct (DualWallet.payment_timestamp parse_payment_time p) as [t |];
    [| now intros [= <- _]].
  destruct (DualWallet.last_check_time st <=? t); [| now intros [= <- _]].
  destruct (get_paid p); [now intros [= <- _] |].
  destruct (PyDict.mem _ _) eqn:Hm; intros [= <- _]; [auto |].
  simpl. now apply in_set_new.
Qed.

Lemma scan_loop_keeps (payments : list payment)
    (st st' : DualWallet.wallet_state) (tr : list event)
    (x : string * invoice) :
  DualWallet.scan_loop parse_payment_time cfg payments st = (st', tr) ->
  In x (DualWallet.pending_invoices st) ->
  In x (DualWallet.pending_invoices st').
Proof.
  revert st st' tr.
  induction payments as [| p rest IH]; intros st st' tr; simpl.
  - now intros [= <- _].
  - destruct (DualWallet.scan_payment parse_payment_time cfg st p)
      as [st1 tr1] eqn:E1.
    destruct (DualWallet.scan_loop parse_payment_time cfg rest st1)
      as [st2 tr2] eqn:E2.
    intros [= <- _] Hin. eapply IH; [exact E2 |].
    eapply scan_payment_keeps; eassumption.
Qed.
End Passing.

(** X16.  A scan looks at incoming records only: dropping from the list
    every record whose amount is absent, zero or negative changes neither
    the activations nor the pending map nor the processed set.  The
    watermark moves to the clock reading whenever the list that was fetched
    is not empty, even if nothing in it is incoming, and an empty list
    leaves the whole state as it was. *)
Theorem outgoing_payments_ignored
    (parse_payment_time : string -> option Z) (cfg : wallet_config)
    (st : DualWallet.wallet_state) (payments : list payment)
    (current_time : Z) :
  let full :=
    DualWallet.scan_for_recent_payments parse_payment_time cfg st
      (Response 200 payments) current_time in
  let kept :=
    DualWallet.scan_for_recent_payments parse_payment_time cfg st
      (Response 200 (filter incoming payments)) current_time in
  snd full = snd kept
  /\ DualWallet.pending_invoices (fst full)
     = DualWallet.pending_invoices (fst kept)
  /\ DualWallet.processed_payments (fst full)
     = DualWallet.processed_payments (fst kept)
  /\ (payments <> [] -> DualWallet.last_check_time (fst full) = current_time)
  /\ (payments = [] -> full = (st, [])).
Proof.
  cbv zeta. unfold DualWallet.scan_for_recent_payments. simpl.
  destruct payments as [| p rest].
  - simpl. repeat split; try reflexivity. intros H. now contradiction H.
  - pose proof (scan_loop_incoming parse_payment_time cfg (p :: rest) st) as E.
    destruct (DualWallet.scan_loop parse_payment_time cfg (p :: rest) st)
      as [st' tr] eqn:Efull.
    destruct (filter incoming (p :: rest)) as [| q qs] eqn:Ef.
    + simpl in E. injection E as <- <-. simpl.
      repeat split; try reflexivity. discriminate.
    + rewrite E. simpl. repeat split; try reflexivity. discriminate.
Qed.

(** X16 on a list that holds one outgoing payment only. *)
Lemma outgoing_payments_ignored_at_example :
  DualWallet.last_check_time
    (fst (DualWallet.scan_for_recent_payments IsoTime.parse WALLET_1_CONFIG
            (DualWallet.setup_wallet_state at_startup)
            (Response 200 [outgoing_payment]) at_first_scan))
  = at_first_scan.
Proof.
  apply (outgoing_payments_ignored IsoTime.parse WALLET_1_CONFIG
           (DualWallet.setup_wallet_state at_startup)
           [outgoing_payment] at_first_scan).
  discriminate.
Defined.

(** X17.  A scan never removes or rewrites a pending entry: the amount,
    memo and discovery time stored at the first sighting of an invoice stay
    as they are through every later scan, whatever the later lists say. *)
Theorem scan_keeps_pending_entries
    (parse_payment_time : string -> option Z) (cfg : wallet_config)
    (st st' : DualWallet.wallet_state) (r : http_response (list payment))
    (current_time : Z) (tr : list event) (h : string) (inv : invoice) :
  DualWallet.scan_for_recent_payments parse_payment_time cfg st r current_time
  = (st', tr) ->
  In (h, inv) (DualWallet.pending_invoices st) ->
  In (h, inv) (DualWallet.pending_invoices st').
Proof.
  unfold DualWallet.scan_for_recent_payments.
  destruct (get_recent_payments r) as [[| p rest] |].
  - now intros [= <- _].
  - destruct (DualWallet.scan_loop parse_payment_time cfg (p :: rest) st)
      as [st1 tr1] eqn:E.
    intros [= <- _] Hin. simpl.
    eapply scan_loop_keeps; eassumption.
  - now intros [= <- _].
Qed.

(** X17 for the stored invoice of the examples (5 sats) when a later list
    shows it with 9000 msat. *)
Lemma scan_keeps_pending_entries_at_example :
  In (invoice_hash, stored_invoice)
     (DualWallet.pending_invoices
        (fst (DualWallet.scan_for_recent_payments IsoTime.parse
                WALLET_1_CONFIG day_old_state
                (Response 200 [status_record 9000 false]) at_first_scan))).
Proof.
  eapply (scan_keeps_pending_entries IsoTime.parse WALLET_1_CONFIG
            day_old_state _ (Response 200 [status_record 9000 false])
            at_first_scan).
  - apply surjective_pairing.
  - left. reflexivity.
Defined.
